(** * MFC Calculator: the flow computation, the CSV timeline, the
      experiment-time estimate, the change handlers and the download of
      [MFCCalculator]

    The component keeps [inputs], [timings], [calibration], [results] and
    [csvData] in React state; [calculateMFCValues], [generateCSV],
    [getTotalTime], [downloadCSV] and the [onChange] handlers are closures
    over that state.  JavaScript numbers are IEEE 754 binary64 values,
    which is what Rocq's primitive [float] is, so every arithmetic step
    below is the one the program performs. *)

From Stdlib Require Import ZArith List String Ascii Bool Lia.
From Stdlib Require Import Floats Uint63 DecimalString.
Import ListNotations.

Local Open Scope string_scope.

(* Decimal literals such as 5.35 denote the nearest double, as they do in
   JavaScript. *)
Set Warnings "-inexact-float".

(** ** JavaScript numbers *)

Module JS.

(** A JavaScript [number]. *)
Definition number := float.

(** [x > y] is [y < x]; both are false as soon as one side is NaN. *)
Definition gt (x y : number) : bool := PrimFloat.ltb y x.
Definition lt (x y : number) : bool := PrimFloat.ltb x y.
Definition le (x y : number) : bool := PrimFloat.leb x y.

(** The number of elements of an array, as a number (array lengths are
    below 2^32, hence exactly representable). *)
Definition of_nat (n : nat) : number :=
  PrimFloat.of_uint63 (Uint63.of_Z (Z.of_nat n)).

(** *** Decimal digits *)

Definition digits (n : Z) : string :=
  NilZero.string_of_uint (N.to_uint (Z.to_N n)).

Fixpoint zeros (n : nat) : string :=
  match n with
  | O => ""
  | S n' => String "0" (zeros n')
  end.

(** The first [n] characters of a digit string, and the rest. *)
Fixpoint take (n : nat) (s : string) : string :=
  match n, s with
  | S n', String c s' => String c (take n' s')
  | _, _ => ""
  end.

Fixpoint drop (n : nat) (s : string) : string :=
  match n, s with
  | S n', String _ s' => drop n' s'
  | _, _ => s
  end.

(** *** Exact value of a finite number

    A finite non-zero double is [m * 2^e] with [m] a positive integer and
    [-1074 <= e]; the functions below compare it with decimal fractions by
    cross-multiplying, in [Z]. *)

Definition pow2 (e : Z) : Z := Z.pow 2 e.
Definition pow10 (e : Z) : Z := Z.pow 10 e.

(** *** Number::toString (radix 10), ECMA-262 6.1.6.1.20

    Step 5 asks for the shortest digit string [s] (of [k] digits) and the
    exponent [n] with [s * 10^(n-k)] rounding to [x]; among several [s] the
    one closest to [x], and the even one on a tie. *)

(** [x = m * 2^e > 0] lies in [10^(n-1), 10^n)]: [decimal_exponent] finds n. *)
Fixpoint exponent_down (fuel : nat) (m e : Z) (n : Z) : Z :=
  (* invariant: x < 10^n; go down while x < 10^(n-1) *)
  match fuel with
  | O => n
  | S fuel' =>
      (* x < 10^(n-1)  <->  m * 2^e < 10^(n-1) *)
      let lhs := (m * pow2 (Z.max e 0) * pow10 (Z.max (1 - n) 0))%Z in
      let rhs := (pow2 (Z.max (- e) 0) * pow10 (Z.max (n - 1) 0))%Z in
      if (lhs <? rhs)%Z then exponent_down fuel' m e (n - 1)%Z else n
  end.

Definition decimal_exponent (m e : Z) : Z :=
  (* x < 2^j with j = log2 m + e + 1, and 2^j <= 10^(j/3 + 1) when 0 <= j,
     2^j <= 10^(j/4 + 1) when j < 0 *)
  let j := (Z.log2 m + e + 1)%Z in
  let hi := if (0 <=? j)%Z then (j / 3 + 1)%Z else (j / 4 + 1)%Z in
  exponent_down 100 m e hi.

(** Comparison of [s * 10^t] with [c * 2^e] ([s], [c] >= 0). *)
Definition cmp_dec_bin (s t c e : Z) : comparison :=
  Z.compare (s * pow10 (Z.max t 0) * pow2 (Z.max (- e) 0))
            (c * pow2 (Z.max e 0) * pow10 (Z.max (- t) 0)).

(** Does [s * 10^t] round (to nearest, ties to even) to [m * 2^e]?  The
    neighbours of [x] are one unit in the last place away, except below a
    power of two, where the lower neighbour is half a unit away. *)
Definition rounds_to (m e s t : Z) : bool :=
  let boundary := ((m =? pow2 52) && (-1074 <? e))%Z in
  let lo := if boundary then (4 * m - 1)%Z else (4 * m - 2)%Z in
  let hi := (4 * m + 2)%Z in
  let even := Z.even m in
  let above_lo := match cmp_dec_bin s t lo (e - 2) with
                  | Gt => true | Eq => even | Lt => false end in
  let below_hi := match cmp_dec_bin s t hi (e - 2) with
                  | Lt => true | Eq => even | Gt => false end in
  above_lo && below_hi.

(** Distance of [s * 10^t] to [x = m * 2^e], up to a common positive
    factor, so that two candidates with the same [t] can be compared. *)
Definition dist (m e s t : Z) : Z :=
  Z.abs (s * pow10 (Z.max t 0) * pow2 (Z.max (- e) 0)
         - m * pow2 (Z.max e 0) * pow10 (Z.max (- t) 0)).

(** The candidates with [k] digits: the two multiples of [10^(n0-k)]
    around [x]. *)
Definition candidate (m e n0 k : Z) : option (Z * Z) :=
  let t := (n0 - k)%Z in
  let num := (m * pow2 (Z.max e 0) * pow10 (Z.max (- t) 0))%Z in
  let den := (pow2 (Z.max (- e) 0) * pow10 (Z.max t 0))%Z in
  let s1 := (num / den)%Z in
  let s2 := (s1 + 1)%Z in
  let ok1 := rounds_to m e s1 t in
  let ok2 := rounds_to m e s2 t in
  let pick (s : Z) : option (Z * Z) :=
    if (s =? pow10 k)%Z then Some (pow10 (k - 1), (n0 + 1)%Z) else Some (s, n0) in
  match ok1, ok2 with
  | false, false => None
  | true, false => pick s1
  | false, true => pick s2
  | true, true =>
      match Z.compare (dist m e s1 t) (dist m e s2 t) with
      | Lt => pick s1
      | Gt => pick s2
      | Eq => if Z.even s1 then pick s1 else pick s2
      end
  end.

Fixpoint shortest (fuel : nat) (m e n0 k : Z) : Z * Z * Z :=
  match fuel with
  | O => (0, k, 0)%Z
  | S fuel' =>
      match candidate m e n0 k with
      | Some (s, n) => (s, k, n)
      | None => shortest fuel' m e n0 (k + 1)
      end
  end.

(** Steps 6 to 10: layout of the digits [s] ([k] of them) at exponent [n]. *)
Definition layout (s k n : Z) : string :=
  let ds := digits s in
  if ((k <=? n) && (n <=? 21))%Z then
    ds ++ zeros (Z.to_nat (n - k))
  else if ((0 <? n) && (n <=? 21))%Z then
    take (Z.to_nat n) ds ++ "." ++ drop (Z.to_nat n) ds
  else if ((-6 <? n) && (n <=? 0))%Z then
    "0." ++ zeros (Z.to_nat (- n)) ++ ds
  else
    let ex := (n - 1)%Z in
    let sign := if (ex <? 0)%Z then "-" else "+" in
    let mant := if (k =? 1)%Z then ds else take 1 ds ++ "." ++ drop 1 ds in
    mant ++ "e" ++ sign ++ digits (Z.abs ex).

Definition Number_toString (x : number) : string :=
  match Prim2SF x with
  | S754_nan => "NaN"
  | S754_zero _ => "0"
  | S754_infinity false => "Infinity"
  | S754_infinity true => "-Infinity"
  | S754_finite sgn m e =>
      let '(s, k, n) := shortest 17 (Zpos m) e (decimal_exponent (Zpos m) e) 1 in
      (if sgn then "-" else "") ++ layout s k n
  end.

(** *** Number.prototype.toFixed, ECMA-262 21.1.3.3

    [fractionDigits] is a literal between 0 and 100 at every call site, so
    the RangeError of steps 4 and 5 cannot happen. *)

(** Step 11.a: the integer [n] with [n / 10^f] closest to [x = m * 2^e],
    the larger one on a tie. *)
Definition toFixed_n (m e : Z) (f : nat) : Z :=
  let p := pow10 (Z.of_nat f) in
  if (0 <=? e)%Z then (m * pow2 e * p)%Z
  else ((2 * m * p + pow2 (- e)) / pow2 (1 - e))%Z.

(** Steps 11.b and 11.c. *)
Definition toFixed_layout (n : Z) (f : nat) : string :=
  let m := digits n in
  match f with
  | O => m
  | _ =>
      let k := String.length m in
      let m' := if (k <=? f)%nat then zeros (f + 1 - k) ++ m else m in
      let k' := if (k <=? f)%nat then (f + 1)%nat else k in
      take (k' - f) m' ++ "." ++ drop (k' - f) m'
  end.

Definition toFixed (x : number) (f : nat) : string :=
  match Prim2SF x with
  | S754_finite sgn m e =>
      (* step 10: x >= 10^21 *)
      if (pow10 21 * pow2 (Z.max (- e) 0) <=? Zpos m * pow2 (Z.max e 0))%Z
      then Number_toString x
      else (if sgn then "-" else "") ++ toFixed_layout (toFixed_n (Zpos m) e f) f
  | S754_zero _ => toFixed_layout 0 f
  | _ => Number_toString x
  end.

(** *** Math.max, ECMA-262 21.3.2.24, applied to a spread array *)

Definition max_step (highest x : number) : number :=
  if PrimFloat.is_nan highest then highest
  else if PrimFloat.is_nan x then PrimFloat.nan
  else if PrimFloat.Leibniz.eqb x PrimFloat.zero
          && PrimFloat.Leibniz.eqb highest PrimFloat.neg_zero
       then PrimFloat.zero
  else if PrimFloat.ltb highest x then x
  else highest.

Definition Math_max (xs : list number) : number :=
  fold_left max_step xs PrimFloat.neg_infinity.

(** *** Sign

    The sign a number carries: set for -0, for negative numbers and for
    -Infinity; NaN carries none. *)
Definition sign_of (x : spec_float) : option bool :=
  match x with
  | S754_zero s | S754_infinity s | S754_finite s _ _ => Some s
  | S754_nan => None
  end.

End JS.

(** ** Component state *)

Import JS.
Local Open Scope float_scope.

(** [inputs] *)
Record Inputs := {
  totalFlow : number;
  targetHumidity : number;
  ch2oSourceConc : number;
  concentrations : list number;
  useDesmosMath : bool
}.

(** [timings] *)
Record Timings := {
  baselineDuration : number;
  exposureDuration : number;
  stabilizationTime : number
}.

(** [calibration] *)
Record Calibration := {
  humiditySlope : number;
  humidityIntercept : number;
  humidityOffset : number;
  humidityScaleFactor : number;
  ch2oCalibrationFactor : number
}.

(** An element of [results.mfcC]; [flow_standard] and [flow_desmos] are
    optional in the declared type. *)
Record ConcData := {
  concentration : number;
  flow : number;
  flow_standard : option number;
  flow_desmos : option number
}.

(** [results] *)
Record Results := {
  mfcA : number;
  mfcB : number;
  mfcC : list ConcData;
  isValid : bool;
  warnings : list string
}.

(** The [useState] cells of [MFCCalculator]. *)
Record State := {
  inputs : Inputs;
  timings : Timings;
  calibration : Calibration;
  results : Results;
  csvData : string
}.

Definition setResults (st : State) (r : Results) : State :=
  {| inputs := st.(inputs);
     timings := st.(timings);
     calibration := st.(calibration);
     results := r;
     csvData := st.(csvData) |}.

(** The initial values passed to [useState]. *)
Definition initialInputs : Inputs :=
  {| totalFlow := 500;
     targetHumidity := 35;
     ch2oSourceConc := 5.35;
     concentrations := [50; 100; 200];
     useDesmosMath := true |}.

Definition initialTimings : Timings :=
  {| baselineDuration := 30;
     exposureDuration := 30;
     stabilizationTime := 5 |}.

Definition initialCalibration : Calibration :=
  {| humiditySlope := 6.0785;
     humidityIntercept := -32.458;
     humidityOffset := 0;
     humidityScaleFactor := 1;
     ch2oCalibrationFactor := 1 |}.

Definition initialResults : Results :=
  {| mfcA := 0;
     mfcB := 0;
     mfcC := [];
     isValid := true;
     warnings := [] |}.

Definition initialState : State :=
  {| inputs := initialInputs;
     timings := initialTimings;
     calibration := initialCalibration;
     results := initialResults;
     csvData := "" |}.

(** ** calculateMFCValues *)

(** The callback of [inputs.concentrations.map]. *)
Definition mfcCValue (st : State) (conc : number) : ConcData :=
  let flow_standard :=
    (conc / 1000) * st.(inputs).(totalFlow) / st.(inputs).(ch2oSourceConc) in
  let flow_desmos := flow_standard * st.(calibration).(ch2oCalibrationFactor) in
  {| concentration := conc;
     flow := if st.(inputs).(useDesmosMath) then flow_desmos else flow_standard;
     flow_standard := Some flow_standard;
     flow_desmos := Some flow_desmos |}.

(** [warnings.push] *)
Definition push (ws : list string) (w : string) : list string := ws ++ [w].

(** The function ends in [setResults]; its [console.log] of the three flows
    writes to the console and to no cell of the state, and is left out. *)
Definition calculateMFCValues (st : State) : State :=
  let warnings : list string := [] in
  if le st.(inputs).(totalFlow) 0
     || lt st.(inputs).(targetHumidity) 0
     || gt st.(inputs).(targetHumidity) 100
  then
    setResults st
      {| mfcA := 0;
         mfcB := 0;
         mfcC := [];
         isValid := false;
         warnings := ["Invalid input parameters"] |}
  else
    let mfcB := st.(calibration).(humiditySlope) * st.(inputs).(targetHumidity)
                + st.(calibration).(humidityIntercept) in
    let mfcB := if lt mfcB 0 then 0 else mfcB in
    let mfcCValues := map (mfcCValue st) st.(inputs).(concentrations) in
    let mfcA := st.(inputs).(totalFlow) - mfcB in
    let warnings :=
      if gt st.(inputs).(targetHumidity) 80
      then push warnings "Humidity >80% may cause condensation"
      else warnings in
    let warnings :=
      if lt st.(inputs).(targetHumidity) 10
      then push warnings "Humidity <10% may be difficult to achieve"
      else warnings in
    let maxMfcCFlow := Math_max (map flow mfcCValues) in
    let warnings :=
      if gt maxMfcCFlow mfcA
      then push warnings
             ("Max MFC C flow (" ++ toFixed maxMfcCFlow 2
              ++ " SLPM) exceeds MFC A capacity (" ++ toFixed mfcA 2 ++ " SLPM)")
      else warnings in
    setResults st
      {| mfcA := mfcA;
         mfcB := mfcB;
         mfcC := mfcCValues;
         isValid := true;
         warnings := warnings |}.

(** ** generateCSV *)

Definition LF : string := String (ascii_of_nat 10) "".

(** The row appended for the air baseline. *)
Definition baselineRow (currentTime mfcA mfcB : number) : string :=
  Number_toString currentTime ++ "," ++ toFixed mfcA 2 ++ ","
  ++ toFixed mfcB 2 ++ ",0" ++ LF.

(** The body of the [mfcC.forEach] callback, on the two variables it
    assigns: [csvContent] and [currentTime]. *)
Definition concStep (exposureDuration mfcA mfcB : number)
    (acc : string * number) (concData : ConcData) : string * number :=
  let '(csvContent, currentTime) := acc in
  let csvContent := csvContent ++ baselineRow currentTime mfcA mfcB in
  let adjustedMfcA := mfcA - concData.(flow) in
  let csvContent :=
    csvContent ++ Number_toString currentTime ++ "," ++ toFixed adjustedMfcA 2
    ++ "," ++ toFixed mfcB 2 ++ "," ++ toFixed concData.(flow) 9 ++ LF in
  let currentTime := currentTime + exposureDuration * 60 in
  (csvContent, currentTime).

(** The lines before the first data row; [now] is what
    [new Date().toISOString()] returns at the call. *)
Definition csvHeader (now : string) (st : State) : string :=
  let csvContent := "# Alicat SSCM MFC Configuration" ++ LF in
  let csvContent := csvContent ++ "# Target Humidity: "
    ++ Number_toString st.(inputs).(targetHumidity) ++ "% RH" ++ LF in
  let csvContent := csvContent ++ "# Total Flow: "
    ++ Number_toString st.(inputs).(totalFlow) ++ " SLPM" ++ LF in
  let csvContent := csvContent ++ "# CH2O Source Concentration: "
    ++ Number_toString st.(inputs).(ch2oSourceConc) ++ " ppm" ++ LF in
  let csvContent := csvContent ++ "# Generated: " ++ now ++ LF in
  let csvContent := csvContent ++ "#" ++ LF in
  let csvContent := csvContent
    ++ "# Protocol: Baseline -> Concentration Steps -> Shutdown" ++ LF in
  let csvContent := csvContent
    ++ "# MFC A: Dry air, MFC B: Humid air, MFC C: CH2O source" ++ LF in
  let csvContent := csvContent ++ "#" ++ LF in
  let csvContent := csvContent ++ "Time,MFC A,MFC B,MFC C" ++ LF in
  csvContent.

Definition generateCSV (now : string) (st : State) : string :=
  if negb st.(results).(isValid) then ""
  else
    let baselineDuration := st.(timings).(baselineDuration) in
    let exposureDuration := st.(timings).(exposureDuration) in
    let mfcA := st.(results).(mfcA) in
    let mfcB := st.(results).(mfcB) in
    let mfcC := st.(results).(mfcC) in
    let csvContent := csvHeader now st in
    let currentTime : number := 0 in
    let csvContent := csvContent ++ baselineRow currentTime mfcA mfcB in
    let currentTime := currentTime + baselineDuration * 60 in
    let '(csvContent, currentTime) :=
      fold_left (concStep exposureDuration mfcA mfcB) mfcC
                (csvContent, currentTime) in
    let csvContent := csvContent ++ baselineRow currentTime mfcA mfcB in
    let csvContent := csvContent ++ Number_toString currentTime ++ ",0,0,0" ++ LF in
    csvContent.

(** ** getTotalTime *)

Definition getTotalTime (st : State) : string :=
  let numConcentrations := List.length st.(inputs).(concentrations) in
  if Nat.eqb numConcentrations 0 then "0"
  else
    let totalMinutes :=
      of_nat numConcentrations * st.(timings).(baselineDuration)
      + of_nat numConcentrations * st.(timings).(exposureDuration)
      + st.(timings).(exposureDuration) in
    toFixed (totalMinutes / 60) 1.

(** The [FlowResult] a run of [calculateMFCValues] leaves in [results]. *)
Definition flowResult (st : State) : Results :=
  (calculateMFCValues st).(results).

(** ** The timeline, as the specification words it

    The rows of the CSV body as values: a kind, the time cursor and the
    three channel flows, before any formatting.  [generateCSV] is compared
    with this description below. *)

Module Timeline.

Inductive RowKind := Baseline | Exposure | Shutdown.

Record Row := {
  kind : RowKind;
  time : number;
  chA : number;
  chB : number;
  chC : number
}.

(** The time cursor when step [i] starts: 0, advanced by the baseline
    duration once and by the exposure duration [i] times, minutes turned
    into seconds. *)
Fixpoint cursor (baselineDuration exposureDuration : number) (i : nat) : number :=
  match i with
  | O => 0 + baselineDuration * 60
  | S i' => cursor baselineDuration exposureDuration i' + exposureDuration * 60
  end.

Definition baselineAt (t mfcA mfcB : number) : Row :=
  {| kind := Baseline; time := t; chA := mfcA; chB := mfcB; chC := 0 |}.

Definition exposureAt (t mfcA mfcB : number) (entry : ConcData) : Row :=
  {| kind := Exposure; time := t;
     chA := mfcA - entry.(flow); chB := mfcB; chC := entry.(flow) |}.

Definition shutdownAt (t : number) : Row :=
  {| kind := Shutdown; time := t; chA := 0; chB := 0; chC := 0 |}.

(** The rows of the steps numbered from [i] on, then the two closing rows. *)
Fixpoint stepRows (bd ed mfcA mfcB : number) (i : nat) (entries : list ConcData)
  : list Row :=
  match entries with
  | [] => [baselineAt (cursor bd ed i) mfcA mfcB; shutdownAt (cursor bd ed i)]
  | entry :: rest =>
      baselineAt (cursor bd ed i) mfcA mfcB
      :: exposureAt (cursor bd ed i) mfcA mfcB entry
      :: stepRows bd ed mfcA mfcB (S i) rest
  end.

Definition rows (st : State) : list Row :=
  baselineAt 0 st.(results).(mfcA) st.(results).(mfcB)
  :: stepRows st.(timings).(baselineDuration) st.(timings).(exposureDuration)
       st.(results).(mfcA) st.(results).(mfcB) 0 st.(results).(mfcC).

(** Formatting: the time unformatted, channels A and B to 2 decimal places,
    channel C to 9 in an exposure row and the literal 0 in a baseline row;
    the shutdown row is all literal zeros. *)
Definition formatRow (r : Row) : string :=
  match r.(kind) with
  | Baseline =>
      Number_toString r.(time) ++ "," ++ toFixed r.(chA) 2 ++ ","
      ++ toFixed r.(chB) 2 ++ ",0" ++ LF
  | Exposure =>
      Number_toString r.(time) ++ "," ++ toFixed r.(chA) 2 ++ ","
      ++ toFixed r.(chB) 2 ++ "," ++ toFixed r.(chC) 9 ++ LF
  | Shutdown => Number_toString r.(time) ++ ",0,0,0" ++ LF
  end.

Definition joinRows (rs : list Row) : string :=
  fold_right (fun r acc => formatRow r ++ acc) "" rs.

(** The sum of the three channels of a row, unformatted. *)
Definition channelSum (r : Row) : number := r.(chA) + r.(chB) + r.(chC).

End Timeline.

(** ** The dilution and the warnings, as the specification words them *)

Module Spec.

(** 4.2: flow_standard = (c / 1000) x totalFlow / ch2oSourceConc. *)
Definition flow_standard_of (i : Inputs) (c : number) : number :=
  (c / 1000) * i.(totalFlow) / i.(ch2oSourceConc).

(** 4.2: flow_desmos = flow_standard x ch2oCalibrationFactor. *)
Definition flow_desmos_of (i : Inputs) (k : Calibration) (c : number) : number :=
  flow_standard_of i c * k.(ch2oCalibrationFactor).

Definition dilution (i : Inputs) (k : Calibration) (c : number) : ConcData :=
  {| concentration := c;
     flow := if i.(useDesmosMath) then flow_desmos_of i k c
             else flow_standard_of i c;
     flow_standard := Some (flow_standard_of i c);
     flow_desmos := Some (flow_desmos_of i k c) |}.

(** 4.1, before the clamp: humiditySlope x targetHumidity + humidityIntercept. *)
Definition unclamped (i : Inputs) (k : Calibration) : number :=
  k.(humiditySlope) * i.(targetHumidity) + k.(humidityIntercept).

Definition condensationWarning : string := "Humidity >80% may cause condensation".
Definition lowHumidityWarning : string := "Humidity <10% may be difficult to achieve".
Definition capacityWarning (maxC mfcA : number) : string :=
  "Max MFC C flow (" ++ toFixed maxC 2 ++ " SLPM) exceeds MFC A capacity ("
  ++ toFixed mfcA 2 ++ " SLPM)".

(** 4.3 step 5: three conditions, each on its own, in this order. *)
Definition warningsFor (h maxC mfcA : number) : list string :=
  (if gt h 80 then [condensationWarning] else [])
  ++ (if lt h 10 then [lowHumidityWarning] else [])
  ++ (if gt maxC mfcA then [capacityWarning maxC mfcA] else []).

(** 4.3 step 1 passed: totalFlow > 0 and 0 <= targetHumidity <= 100. *)
Definition validInput (i : Inputs) : Prop :=
  gt i.(totalFlow) 0 = true
  /\ le 0 i.(targetHumidity) = true
  /\ le i.(targetHumidity) 100 = true.

(** 4.3 step 1 failed: totalFlow <= 0, or targetHumidity below 0 or above 100. *)
Definition invalidInput (i : Inputs) : Prop :=
  le i.(totalFlow) 0 = true
  \/ lt i.(targetHumidity) 0 = true
  \/ gt i.(targetHumidity) 100 = true.

Definition invalidResult : Results :=
  {| mfcA := 0; mfcB := 0; mfcC := []; isValid := false;
     warnings := ["Invalid input parameters"] |}.

End Spec.

(** ** States used in the examples *)

Definition withInputs (i : Inputs) : State :=
  {| inputs := i;
     timings := initialTimings;
     calibration := initialCalibration;
     results := initialResults;
     csvData := "" |}.

Definition withSource (st : State) (source : number) : State :=
  {| inputs :=
       {| totalFlow := st.(inputs).(totalFlow);
          targetHumidity := st.(inputs).(targetHumidity);
          ch2oSourceConc := source;
          concentrations := st.(inputs).(concentrations);
          useDesmosMath := st.(inputs).(useDesmosMath) |};
     timings := st.(timings);
     calibration := st.(calibration);
     results := st.(results);
     csvData := st.(csvData) |}.

(** The initial inputs with another total flow and source concentration. *)
Definition inputsWith (total source : number) : Inputs :=
  {| totalFlow := total;
     targetHumidity := 35;
     ch2oSourceConc := source;
     concentrations := [50; 100; 200];
     useDesmosMath := true |}.

(** A negative total flow: rejected. *)
Definition negativeFlowState : State := withInputs (inputsWith (-1) 5.35).

(** A total flow of 50.3 SLPM, below the humid-air flow at 35 % RH. *)
Definition lowFlowState : State := withInputs (inputsWith 50.3 5.35).

(** A total flow of 436.3 SLPM at 35 % RH. *)
Definition fractionalFlowState : State := withInputs (inputsWith 436.3 5.35).

(** A source concentration of 0 ppm, and a negative one. *)
Definition zeroSourceState : State := withInputs (inputsWith 500 0).
Definition negativeSourceState : State := withInputs (inputsWith 500 (-5.35)).

(** The initial inputs and calibration next to other timings, an older
    result and an older CSV text. *)
Definition staleState : State :=
  {| inputs := initialInputs;
     timings := {| baselineDuration := 5; exposureDuration := 10;
                   stabilizationTime := 1 |};
     calibration := initialCalibration;
     results := Spec.invalidResult;
     csvData := "Time,MFC A,MFC B,MFC C" |}.

(** The component after its first [calculateMFCValues]. *)
Definition firstState : State := calculateMFCValues initialState.

(** A humidity that is not a number. *)
Definition nanHumidityState : State :=
  withInputs
    {| totalFlow := 500;
       targetHumidity := PrimFloat.nan;
       ch2oSourceConc := 5.35;
       concentrations := [50; 100; 200];
       useDesmosMath := true |}.

(** The guard of [calculateMFCValues]. *)
Definition rejected (i : Inputs) : bool :=
  le i.(totalFlow) 0 || lt i.(targetHumidity) 0 || gt i.(targetHumidity) 100.

(** ** Texts typed into the fields, and their parsing *)

Module Text.

(** A JavaScript string: a sequence of UTF-16 code units. *)
Definition text := list N.

(** The code units of a text of characters below 256. *)
Definition of_string (s : string) : text :=
  map N_of_ascii (list_ascii_of_string s).

(** WhiteSpace and LineTerminator, ECMA-262 12.2 and 12.3. *)
Definition isWhiteSpace (u : N) : bool :=
  existsb (N.eqb u)
    [9; 10; 11; 12; 13; 32; 160; 5760; 8192; 8193; 8194; 8195; 8196; 8197;
     8198; 8199; 8200; 8201; 8202; 8232; 8233; 8239; 8287; 12288; 65279]%N.

Fixpoint trimStart (s : text) : text :=
  match s with
  | u :: s' => if isWhiteSpace u then trimStart s' else s
  | [] => []
  end.

Definition trimEnd (s : text) : text := rev (trimStart (rev s)).

(** String.prototype.trim *)
Definition trim (s : text) : text := trimEnd (trimStart s).

(** String.prototype.split with a one-unit separator and no limit: the
    pieces between the separators, empty ones included. *)
Fixpoint split (sep : N) (s : text) : list text :=
  match s with
  | [] => [[]]
  | u :: s' =>
      if N.eqb u sep then [] :: split sep s'
      else match split sep s' with
           | piece :: rest => (u :: piece) :: rest
           | [] => [[u]]
           end
  end.

Definition isDigit (u : N) : bool := ((48 <=? u) && (u <=? 57))%N.

(** The longest run of decimal digits at the start, as digit values, and
    what follows it. *)
Fixpoint takeDigits (s : text) : list Z * text :=
  match s with
  | u :: s' =>
      if isDigit u
      then let '(ds, rest) := takeDigits s' in ((Z.of_N u - 48)%Z :: ds, rest)
      else ([], s)
  | [] => ([], [])
  end.

Definition valueOf (radix : Z) (ds : list Z) : Z :=
  fold_left (fun acc d => (radix * acc + d)%Z) ds 0%Z.

Fixpoint startsWith (prefix s : text) : bool :=
  match prefix, s with
  | [], _ => true
  | p :: prefix', u :: s' => N.eqb p u && startsWith prefix' s'
  | _ :: _, [] => false
  end.

(** The number nearest to [n / d] ([n], [d] positive), ties to even, an
    infinity beyond the largest double. *)
Definition nearest (n d : Z) : spec_float :=
  let '(q, e, l) := SFdiv_core_binary prec emax n 0 d 0 in
  binary_round_aux prec emax false q e l.

(** The number nearest to [n * 10^x] ([n] positive).  Far outside the
    range of the doubles the answer is known without the power. *)
Definition nearestDecimal (n x : Z) : number :=
  if (400 <? x)%Z then PrimFloat.infinity
  else if ((Z.log2 n + 1) / 3 + 1 + x <? -400)%Z then PrimFloat.zero
  else if (0 <=? x)%Z then SF2Prim (nearest (n * pow10 x) 1)
  else SF2Prim (nearest n (pow10 (- x))).

(** ExponentPart, when one follows: e or E, an optional sign, digits. *)
Definition exponentPart (s : text) : Z :=
  match s with
  | u :: s' =>
      if (N.eqb u 101 || N.eqb u 69)%N then
        let '(sign, s'') :=
          match s' with
          | 43%N :: t => (1%Z, t)
          | 45%N :: t => ((-1)%Z, t)
          | _ => (1%Z, s')
          end in
        match fst (takeDigits s'') with
        | [] => 0%Z
        | ds => (sign * valueOf 10 ds)%Z
        end
      else 0%Z
  | [] => 0%Z
  end.

(** The longest prefix that is a StrUnsignedDecimalLiteral, as its value. *)
Definition unsignedDecimal (s : text) : number :=
  if startsWith (of_string "Infinity") s then PrimFloat.infinity
  else
    let '(ip, r1) := takeDigits s in
    let decimal (ds : list Z) (x : Z) : number :=
      if (valueOf 10 ds =? 0)%Z then PrimFloat.zero
      else nearestDecimal (valueOf 10 ds) x in
    match r1 with
    | 46%N :: r2 =>
        let '(fp, r3) := takeDigits r2 in
        match ip, fp with
        | [], [] => PrimFloat.nan
        | _, _ =>
            decimal (ip ++ fp)%list
                    (exponentPart r3 - Z.of_nat (List.length fp))%Z
        end
    | _ =>
        match ip with
        | [] => PrimFloat.nan
        | _ => decimal ip (exponentPart r1)
        end
    end.

(** parseFloat, ECMA-262 19.2.4.  For literals of more than 20 significant
    digits the standard leaves the last bit to the implementation; the
    value here is the nearest double, which is what engines return. *)
Definition parseFloat (s : text) : number :=
  match trimStart s with
  | 45%N :: s' => PrimFloat.opp (unsignedDecimal s')
  | 43%N :: s' => unsignedDecimal s'
  | s' => unsignedDecimal s'
  end.

(** The value of a digit in radix 16, if it is one. *)
Definition hexValue (u : N) : option Z :=
  if isDigit u then Some (Z.of_N u - 48)%Z
  else if ((97 <=? u) && (u <=? 102))%N then Some (Z.of_N u - 87)%Z
  else if ((65 <=? u) && (u <=? 70))%N then Some (Z.of_N u - 55)%Z
  else None.

Fixpoint takeHexDigits (s : text) : list Z :=
  match s with
  | u :: s' =>
      match hexValue u with
      | Some d => d :: takeHexDigits s'
      | None => []
      end
  | [] => []
  end.

(** parseInt with no radix, ECMA-262 19.2.5: radix 16 after 0x or 0X,
    radix 10 otherwise. *)
Definition parseInt (s : text) : number :=
  let trimmed := trimStart s in
  let '(negative, body) :=
    match trimmed with
    | 45%N :: t => (true, t)
    | 43%N :: t => (false, t)
    | _ => (false, trimmed)
    end in
  let '(radix, ds) :=
    match body with
    | 48%N :: x :: t =>
        if (N.eqb x 120 || N.eqb x 88)%N then (16%Z, takeHexDigits t)
        else (10%Z, fst (takeDigits body))
    | _ => (10%Z, fst (takeDigits body))
    end in
  match ds with
  | [] => PrimFloat.nan
  | _ =>
      let mathInt := valueOf radix ds in
      let magnitude :=
        if (mathInt =? 0)%Z then PrimFloat.zero
        else SF2Prim (nearest mathInt 1) in
      if negative then PrimFloat.opp magnitude else magnitude
  end.

(** [a || b] on numbers: [b] when [a] is 0, -0 or NaN. *)
Definition orElse (a b : number) : number :=
  if PrimFloat.eqb a 0 || PrimFloat.is_nan a then b else a.

End Text.

(** ** The change handlers of the fields *)

Definition setInputs (st : State) (i : Inputs) : State :=
  {| inputs := i;
     timings := st.(timings);
     calibration := st.(calibration);
     results := st.(results);
     csvData := st.(csvData) |}.

Definition setTimings (st : State) (t : Timings) : State :=
  {| inputs := st.(inputs);
     timings := t;
     calibration := st.(calibration);
     results := st.(results);
     csvData := st.(csvData) |}.

Definition setCsvData (st : State) (d : string) : State :=
  {| inputs := st.(inputs);
     timings := st.(timings);
     calibration := st.(calibration);
     results := st.(results);
     csvData := d |}.

(** [onChange] of "Total Flow (SLPM)"; [value] is [e.target.value]. *)
Definition onTotalFlowChange (value : Text.text) (st : State) : State :=
  setInputs st
    {| totalFlow := Text.orElse (Text.parseFloat value) 500;
       targetHumidity := st.(inputs).(targetHumidity);
       ch2oSourceConc := st.(inputs).(ch2oSourceConc);
       concentrations := st.(inputs).(concentrations);
       useDesmosMath := st.(inputs).(useDesmosMath) |}.

(** [onChange] of "Target Humidity (%)". *)
Definition onTargetHumidityChange (value : Text.text) (st : State) : State :=
  setInputs st
    {| totalFlow := st.(inputs).(totalFlow);
       targetHumidity := Text.orElse (Text.parseFloat value) 50;
       ch2oSourceConc := st.(inputs).(ch2oSourceConc);
       concentrations := st.(inputs).(concentrations);
       useDesmosMath := st.(inputs).(useDesmosMath) |}.

(** [onChange] of "CH2O Source Concentration (ppm)". *)
Definition onSourceConcChange (value : Text.text) (st : State) : State :=
  setInputs st
    {| totalFlow := st.(inputs).(totalFlow);
       targetHumidity := st.(inputs).(targetHumidity);
       ch2oSourceConc := Text.orElse (Text.parseFloat value) 2000;
       concentrations := st.(inputs).(concentrations);
       useDesmosMath := st.(inputs).(useDesmosMath) |}.

(** The values kept from the text of "Concentration Steps (ppb)":
    [value.split(',').map(v => parseFloat(v.trim())).filter(v => !isNaN(v))]. *)
Definition parseConcentrations (value : Text.text) : list number :=
  filter (fun v => negb (PrimFloat.is_nan v))
         (map (fun v => Text.parseFloat (Text.trim v)) (Text.split 44 value)).

(** [onChange] of "Concentration Steps (ppb)". *)
Definition onConcentrationsChange (value : Text.text) (st : State) : State :=
  let values := parseConcentrations value in
  setInputs st
    {| totalFlow := st.(inputs).(totalFlow);
       targetHumidity := st.(inputs).(targetHumidity);
       ch2oSourceConc := st.(inputs).(ch2oSourceConc);
       concentrations := values;
       useDesmosMath := st.(inputs).(useDesmosMath) |}.

(** [onChange] of the "Use Desmos Math" checkbox. *)
Definition onUseDesmosMathChange (checked : bool) (st : State) : State :=
  setInputs st
    {| totalFlow := st.(inputs).(totalFlow);
       targetHumidity := st.(inputs).(targetHumidity);
       ch2oSourceConc := st.(inputs).(ch2oSourceConc);
       concentrations := st.(inputs).(concentrations);
       useDesmosMath := checked |}.

(** [onChange] of "Baseline (min)", "Exposure (min)", "Stabilization (min)". *)
Definition onBaselineChange (value : Text.text) (st : State) : State :=
  setTimings st
    {| baselineDuration := Text.orElse (Text.parseInt value) 30;
       exposureDuration := st.(timings).(exposureDuration);
       stabilizationTime := st.(timings).(stabilizationTime) |}.

Definition onExposureChange (value : Text.text) (st : State) : State :=
  setTimings st
    {| baselineDuration := st.(timings).(baselineDuration);
       exposureDuration := Text.orElse (Text.parseInt value) 30;
       stabilizationTime := st.(timings).(stabilizationTime) |}.

Definition onStabilizationChange (value : Text.text) (st : State) : State :=
  setTimings st
    {| baselineDuration := st.(timings).(baselineDuration);
       exposureDuration := st.(timings).(exposureDuration);
       stabilizationTime := Text.orElse (Text.parseInt value) 5 |}.

(** ** downloadCSV *)

(** [replace(/[:.]/g, '-')] *)
Fixpoint replaceColonDot (s : string) : string :=
  match s with
  | EmptyString => EmptyString
  | String c s' =>
      String (if (Ascii.eqb c ":" || Ascii.eqb c ".")%char then "-"%char else c)
             (replaceColonDot s')
  end.

(** What the click on the anchor hands to the browser: the parts and the
    type of the [Blob] behind [a.href], and [a.download]. *)
Record Download := {
  blobContent : string;
  blobType : string;
  download : string
}.

(** [nowCsv] and [nowName] are what the two [new Date().toISOString()]
    return: the one inside [generateCSV] and the one of the file name.  The
    anchor is appended, clicked and removed, and the object URL revoked:
    what is left is the new [csvData] and the download. *)
Definition downloadCSV (nowCsv nowName : string) (st : State) : State * Download :=
  let csvContent := generateCSV nowCsv st in
  let st' := setCsvData st csvContent in
  let timestamp := take 16 (replaceColonDot nowName) in
  (st',
   {| blobContent := csvContent;
      blobType := "text/csv";
      download := "MFC_" ++ Number_toString st.(inputs).(targetHumidity)
                  ++ "RH_" ++ timestamp ++ ".csv" |}).

(** ** The component as a machine driven by events

    An event runs its handler; when the handler replaces [inputs] the
    effect on [calculateMFCValues] runs again ([calculateMFCValues] is
    rebuilt when [inputs] or [calibration] change), when it replaces
    [timings] or [csvData] it does not.  The two effects of the mount both
    run [calculateMFCValues] on the initial state.  The Download button is
    rendered disabled while [results.isValid] is false; a click is modelled
    in every state, as a call of [downloadCSV]. *)

Inductive Event :=
  | TotalFlowTyped (value : Text.text)
  | TargetHumidityTyped (value : Text.text)
  | SourceConcTyped (value : Text.text)
  | ConcentrationsTyped (value : Text.text)
  | UseDesmosMathToggled (checked : bool)
  | BaselineTyped (value : Text.text)
  | ExposureTyped (value : Text.text)
  | StabilizationTyped (value : Text.text)
  | DownloadClicked (nowCsv nowName : string).

Definition dispatch (st : State) (ev : Event) : State :=
  match ev with
  | TotalFlowTyped value => calculateMFCValues (onTotalFlowChange value st)
  | TargetHumidityTyped value =>
      calculateMFCValues (onTargetHumidityChange value st)
  | SourceConcTyped value => calculateMFCValues (onSourceConcChange value st)
  | ConcentrationsTyped value =>
      calculateMFCValues (onConcentrationsChange value st)
  | UseDesmosMathToggled checked =>
      calculateMFCValues (onUseDesmosMathChange checked st)
  | BaselineTyped value => onBaselineChange value st
  | ExposureTyped value => onExposureChange value st
  | StabilizationTyped value => onStabilizationChange value st
  | DownloadClicked nowCsv nowName => fst (downloadCSV nowCsv nowName st)
  end.

(** The state after the mount effects and a sequence of events. *)
Definition run (events : list Event) : State :=
  fold_left dispatch events (calculateMFCValues initialState).

(** A number that [a || b] keeps: neither 0, -0 nor NaN. *)
Definition truthy (x : number) : bool :=
  negb (PrimFloat.eqb x 0 || PrimFloat.is_nan x).

(** What holds of the state after any sequence of events: the result is
    the one of the current inputs, the calibration is the initial one, no
    scalar field holds 0 or NaN, no concentration is NaN, and the CSV text
    kept for the preview is empty or starts with the first header line. *)
Record Settled (st : State) : Prop := {
  settled_results : st.(results) = flowResult st;
  settled_calibration : st.(calibration) = initialCalibration;
  settled_totalFlow : truthy st.(inputs).(totalFlow) = true;
  settled_targetHumidity : truthy st.(inputs).(targetHumidity) = true;
  settled_ch2oSourceConc : truthy st.(inputs).(ch2oSourceConc) = true;
  settled_concentrations :
    Forall (fun c => PrimFloat.is_nan c = false) st.(inputs).(concentrations);
  settled_baselineDuration : truthy st.(timings).(baselineDuration) = true;
  settled_exposureDuration : truthy st.(timings).(exposureDuration) = true;
  settled_stabilizationTime : truthy st.(timings).(stabilizationTime) = true;
  settled_csvData :
    st.(csvData) = ""
    \/ String.prefix "# Alicat SSCM MFC Configuration" st.(csvData) = true
}.

(** ** What is read off a text *)

(** The number of occurrences of a character. *)
Fixpoint count_char (c : ascii) (s : string) : nat :=
  match s with
  | EmptyString => O
  | String d s' => ((if Ascii.eqb c d then 1 else 0) + count_char c s')%nat
  end.

(** Do all the characters of a text satisfy [p]? *)
Fixpoint all_chars (p : ascii -> bool) (s : string) : bool :=
  match s with
  | EmptyString => true
  | String c s' => p c && all_chars p s'
  end.

Definition is_digit (c : ascii) : bool :=
  (48 <=? nat_of_ascii c)%nat && (nat_of_ascii c <=? 57)%nat.

(** The characters a printed number is made of: digits, the signs, the
    point, the exponent mark and the letters of Infinity and NaN. *)
Definition numeral_char (c : ascii) : bool :=
  is_digit c
  || existsb (Ascii.eqb c)
       ["+"; "-"; "."; "e"; "I"; "n"; "f"; "i"; "t"; "y"; "N"; "a"]%char.

Definition COMMA : ascii := ","%char.
Definition LFchar : ascii := ascii_of_nat 10.

(** ** What is read off the warnings *)

(** Is the capacity message among the warnings?  It is the only one that
    starts with "Max MFC C flow (". *)
Definition hasCapacityWarning (ws : list string) : bool :=
  existsb (String.prefix "Max MFC C flow (") ws.

(** ** Facts about binary64 comparison, subtraction and division

    Derived from the specification of the primitive operations
    ([FloatAxioms]) over [spec_float]. *)

Module FloatFacts.

Lemma SFcompare_antisym (x y : spec_float) :
  SFcompare y x = option_map CompOpp (SFcompare x y).
Proof.
  destruct x as [sx | sx | | sx mx ex], y as [sy | sy | | sy my ey];
    simpl; try reflexivity;
    try (destruct sx; reflexivity); try (destruct sy; reflexivity);
    try (destruct sx, sy; reflexivity).
  destruct sx, sy; simpl; try reflexivity;
    rewrite (Z.compare_antisym ex ey);
    destruct (ex ?= ey)%Z; simpl; try reflexivity;
    change (Pos.compare_cont Eq my mx) with (Pos.compare my mx);
    change (Pos.compare_cont Eq mx my) with (Pos.compare mx my);
    rewrite (Pos.compare_antisym mx my);
    destruct (mx ?= my)%positive; reflexivity.
Qed.

Lemma ltb_leb_false (x y : float) :
  PrimFloat.ltb x y = true -> PrimFloat.leb y x = false.
Proof.
  rewrite FloatAxioms.ltb_spec, FloatAxioms.leb_spec. unfold SFltb, SFleb.
  rewrite (SFcompare_antisym (Prim2SF x) (Prim2SF y)).
  destruct (SFcompare (Prim2SF x) (Prim2SF y)) as [[ | | ] | ];
    simpl; congruence.
Qed.

Lemma leb_ltb_false (x y : float) :
  PrimFloat.leb x y = true -> PrimFloat.ltb y x = false.
Proof.
  rewrite FloatAxioms.ltb_spec, FloatAxioms.leb_spec. unfold SFltb, SFleb.
  rewrite (SFcompare_antisym (Prim2SF x) (Prim2SF y)).
  destruct (SFcompare (Prim2SF x) (Prim2SF y)) as [[ | | ] | ];
    simpl; congruence.
Qed.

(** [x - 0] is [x], whatever [x] is (NaN, an infinity and -0 included). *)
Lemma sub_0_r (x : float) : (x - 0)%float = x.
Proof.
  apply Prim2SF_inj. rewrite FloatAxioms.sub_spec.
  change (Prim2SF 0) with (S754_zero false).
  unfold SF64sub, SFsub.
  destruct (Prim2SF x) as [[ | ] | [ | ] | | s m e]; reflexivity.
Qed.

(** [x + 0] is [x] for a positive [x] (it is not for -0). *)
Lemma add_0_r_pos (x : float) :
  PrimFloat.ltb 0 x = true -> (x + 0)%float = x.
Proof.
  rewrite FloatAxioms.ltb_spec. change (Prim2SF 0) with (S754_zero false).
  intros H. apply Prim2SF_inj. rewrite FloatAxioms.add_spec.
  change (Prim2SF 0) with (S754_zero false).
  unfold SF64add, SFadd.
  destruct (Prim2SF x) as [s | [ | ] | | s m e]; try discriminate H;
    reflexivity.
Qed.

(** No number is both above 80 and below 10. *)
Lemma gt80_lt10_absurd (h : float) :
  PrimFloat.ltb 80 h = true -> PrimFloat.ltb h 10 = true -> False.
Proof.
  rewrite !FloatAxioms.ltb_spec.
  change (Prim2SF 80) with (S754_finite false 5629499534213120 (-46)).
  change (Prim2SF 10) with (S754_finite false 5629499534213120 (-49)).
  unfold SFltb, SFcompare.
  destruct (Prim2SF h) as [s | [ | ] | | [ | ] m e]; try discriminate.
  destruct (Z.compare_spec (-46) e), (Z.compare_spec e (-49));
    try discriminate; lia.
Qed.


(** *** Sign of a quotient *)

Lemma shr_1_nonneg (mrs : shr_record) :
  (0 <= shr_m mrs)%Z -> (0 <= shr_m (shr_1 mrs))%Z.
Proof.
  destruct mrs as [m r s]. simpl.
  destruct m as [ | [p | p | ] | p]; simpl; lia.
Qed.

Lemma iter_shr_1_nonneg (p : positive) (mrs : shr_record) :
  (0 <= shr_m mrs)%Z -> (0 <= shr_m (iter_pos shr_1 p mrs))%Z.
Proof.
  revert mrs. induction p as [p IH | p IH | ]; intros mrs H; simpl.
  - apply IH, IH, shr_1_nonneg, H.
  - apply IH, IH, H.
  - apply shr_1_nonneg, H.
Qed.

Lemma shr_fexp_nonneg (m e : Z) (l : location) :
  (0 <= m)%Z -> (0 <= shr_m (fst (shr_fexp prec emax m e l)))%Z.
Proof.
  intros H. unfold shr_fexp, shr.
  assert (H0 : (0 <= shr_m (shr_record_of_loc m l))%Z)
    by (destruct l as [ | [ | | ]]; exact H).
  destruct (fexp prec emax (Zdigits2 m + e) - e)%Z as [ | p | p]; simpl;
    try exact H0.
  apply iter_shr_1_nonneg, H0.
Qed.

Lemma round_nearest_even_nonneg (m : Z) (l : location) :
  (0 <= m)%Z -> (0 <= round_nearest_even m l)%Z.
Proof.
  intros H. destruct l as [ | [ | | ]]; simpl; try lia.
  destruct (Z.even m); lia.
Qed.

(** Rounding a non-negative mantissa keeps the sign it was given. *)
Lemma binary_round_aux_sign (s : bool) (m e : Z) (l : location) :
  (0 <= m)%Z -> sign_of (binary_round_aux prec emax s m e l) = Some s.
Proof.
  intros H. unfold binary_round_aux.
  pose proof (shr_fexp_nonneg m e l H) as H1.
  destruct (shr_fexp prec emax m e l) as [mrs' e']. simpl in H1.
  pose proof (shr_fexp_nonneg _ e' loc_Exact
                (round_nearest_even_nonneg _ (loc_of_shr_record mrs') H1)) as H2.
  destruct (shr_fexp prec emax
              (round_nearest_even (shr_m mrs') (loc_of_shr_record mrs'))
              e' loc_Exact) as [mrs'' e''].
  simpl in H2.
  destruct (shr_m mrs'') as [ | p | p]; [ reflexivity | | lia ].
  destruct (e'' <=? emax - prec)%Z; reflexivity.
Qed.

Lemma SFdiv_core_binary_nonneg (m1 m2 : positive) (e1 e2 : Z) :
  (0 <= fst (fst (SFdiv_core_binary prec emax (Zpos m1) e1 (Zpos m2) e2)))%Z.
Proof.
  unfold SFdiv_core_binary.
  set (s := (e1 - e2 - _)%Z).
  set (m' := match s with Zpos _ => Z.shiftl (Zpos m1) s | Z0 => Zpos m1 | Zneg _ => 0%Z end).
  assert (Hm : (0 <= m')%Z).
  { subst m'. destruct s; try lia. apply Z.shiftl_nonneg. lia. }
  pose proof (Z_div_mod m' (Zpos m2) eq_refl) as Hd.
  destruct (Z.div_eucl m' (Zpos m2)) as [q r]. simpl.
  destruct Hd as [Hq Hr]. nia.
Qed.

(** What a strictly positive number looks like. *)
Lemma pos_inv (x : float) :
  PrimFloat.ltb 0 x = true ->
  Prim2SF x = S754_infinity false \/ exists m e, Prim2SF x = S754_finite false m e.
Proof.
  rewrite FloatAxioms.ltb_spec. change (Prim2SF 0) with (S754_zero false).
  unfold SFltb, SFcompare.
  destruct (Prim2SF x) as [s | [ | ] | | [ | ] m e]; try discriminate; eauto.
Qed.

(** What a strictly negative number other than -Infinity looks like. *)
Lemma neg_finite_inv (x : float) :
  PrimFloat.ltb x 0 = true -> PrimFloat.ltb PrimFloat.neg_infinity x = true ->
  exists m e, Prim2SF x = S754_finite true m e.
Proof.
  rewrite !FloatAxioms.ltb_spec. change (Prim2SF 0) with (S754_zero false).
  change (Prim2SF PrimFloat.neg_infinity) with (S754_infinity true).
  unfold SFltb, SFcompare.
  destruct (Prim2SF x) as [s | [ | ] | | [ | ] m e]; try discriminate; eauto.
Qed.

Lemma zero_inv (x : float) :
  PrimFloat.eqb x 0 = true -> exists s, Prim2SF x = S754_zero s.
Proof.
  rewrite FloatAxioms.eqb_spec. change (Prim2SF 0) with (S754_zero false).
  unfold SFeqb, SFcompare.
  destruct (Prim2SF x) as [s | [ | ] | | [ | ] m e]; try discriminate; eauto.
Qed.

Lemma is_infinity_intro (x : float) (s : bool) :
  Prim2SF x = S754_infinity s -> PrimFloat.is_infinity x = true.
Proof.
  intros H. unfold PrimFloat.is_infinity.
  rewrite FloatAxioms.eqb_spec, FloatAxioms.abs_spec, H. reflexivity.
Qed.

Lemma SFcompare_refl (x : spec_float) :
  x <> S754_nan -> SFcompare x x = Some Eq.
Proof.
  destruct x as [s | [ | ] | | [ | ] m e]; simpl; try congruence;
    intros _; rewrite Z.compare_refl;
    change (Pos.compare_cont Eq m m) with (Pos.compare m m);
    rewrite Pos.compare_refl; reflexivity.
Qed.

(** A number whose sign is set is not NaN and has [get_sign] true. *)
Lemma sign_set (x : float) :
  sign_of (Prim2SF x) = Some true ->
  PrimFloat.is_nan x = false /\ PrimFloat.get_sign x = true.
Proof.
  intros H. split.
  - unfold PrimFloat.is_nan. rewrite FloatAxioms.eqb_spec. unfold SFeqb.
    rewrite SFcompare_refl; [ reflexivity | ].
    intros E. rewrite E in H. discriminate.
  - unfold PrimFloat.get_sign, PrimFloat.is_zero.
    rewrite FloatAxioms.eqb_spec.
    change (Prim2SF PrimFloat.zero) with (S754_zero false).
    destruct (Prim2SF x) as [s | s | | s m e] eqn:E; simpl in H;
      try discriminate; injection H as ->.
    + change (SFeqb (S754_zero true) (S754_zero false)) with true. cbv iota.
      rewrite FloatAxioms.ltb_spec, FloatAxioms.div_spec, E.
      reflexivity.
    + change (SFeqb (S754_infinity true) (S754_zero false)) with false.
      cbv iota. rewrite FloatAxioms.ltb_spec, E. reflexivity.
    + change (SFeqb (S754_finite true m e) (S754_zero false)) with false.
      cbv iota. rewrite FloatAxioms.ltb_spec, E. reflexivity.
Qed.

(** A positive numerator over a zero divisor: an infinity. *)
Lemma div_pos_zero (x y : float) :
  PrimFloat.ltb 0 x = true -> PrimFloat.eqb y 0 = true ->
  PrimFloat.is_infinity (x / y) = true.
Proof.
  intros Hx Hy.
  destruct (zero_inv y Hy) as [sy Ey].
  destruct (pos_inv x Hx) as [Ex | (m & e & Ex)].
  - apply (is_infinity_intro _ (xorb false sy)).
    rewrite FloatAxioms.div_spec, Ex, Ey. reflexivity.
  - apply (is_infinity_intro _ (xorb false sy)).
    rewrite FloatAxioms.div_spec, Ex, Ey. reflexivity.
Qed.

(** A positive numerator over a negative divisor other than -Infinity:
    the quotient has its sign set (a negative number, -Infinity, or -0 when
    the quotient underflows). *)
Lemma div_pos_neg (x y : float) :
  PrimFloat.ltb 0 x = true ->
  PrimFloat.ltb y 0 = true -> PrimFloat.ltb PrimFloat.neg_infinity y = true ->
  sign_of (Prim2SF (x / y)) = Some true.
Proof.
  intros Hx Hy Hy'. rewrite FloatAxioms.div_spec.
  destruct (neg_finite_inv y Hy Hy') as (my & ey & Ey).
  destruct (pos_inv x Hx) as [Ex | (mx & ex & Ex)]; rewrite Ex, Ey.
  - reflexivity.
  - unfold SF64div, SFdiv.
    pose proof (SFdiv_core_binary_nonneg mx my ex ey) as Hq.
    destruct (SFdiv_core_binary prec emax (Zpos mx) ex (Zpos my) ey)
      as [[mz ez] lz]. simpl in Hq.
    apply binary_round_aux_sign, Hq.
Qed.

(** With its sign set, a number is negative (-Infinity included) or -0. *)
Lemma sign_set_negative (x : float) :
  sign_of (Prim2SF x) = Some true ->
  PrimFloat.ltb x 0 = true \/ x = PrimFloat.neg_zero.
Proof.
  intros H. rewrite FloatAxioms.ltb_spec.
  change (Prim2SF 0) with (S754_zero false).
  destruct (Prim2SF x) as [s | s | | s m e] eqn:E; simpl in H;
    try discriminate; injection H as ->.
  - right. apply Prim2SF_inj. rewrite E. reflexivity.
  - left. reflexivity.
  - left. reflexivity.
Qed.

(** Whatever the numerator, a quotient by 0 or -0 is not a finite number:
    it is an infinity, or NaN when the numerator is itself 0 or NaN. *)
Lemma div_zero_not_finite (x y : float) :
  PrimFloat.eqb y 0 = true -> PrimFloat.is_finite (x / y) = false.
Proof.
  intros Hy. destruct (zero_inv y Hy) as [sy Ey].
  assert (D : Prim2SF (x / y) = S754_nan
              \/ exists s, Prim2SF (x / y) = S754_infinity s).
  { rewrite FloatAxioms.div_spec, Ey. unfold SF64div, SFdiv.
    destruct (Prim2SF x) as [s | s | | s m e]; eauto. }
  unfold PrimFloat.is_finite. destruct D as [D | [s D]].
  - unfold PrimFloat.is_nan. rewrite FloatAxioms.eqb_spec, D. reflexivity.
  - rewrite (is_infinity_intro _ s D), orb_true_r. reflexivity.
Qed.

End FloatFacts.

(** ** The number formatting on known values *)

Example Number_toString_samples :
  map Number_toString
      [0.1 + 0.2; 5.35; 1e21; 1e-7; 0.000001; 123456789012345680000; 5e-324;
       -1.5; 7200; PrimFloat.nan; PrimFloat.neg_infinity; PrimFloat.neg_zero]
  = ["0.30000000000000004"; "5.35"; "1e+21"; "1e-7"; "0.000001";
     "123456789012345680000"; "5e-324"; "-1.5"; "7200"; "NaN"; "-Infinity";
     "0"].
Proof. vm_compute. reflexivity. Qed.

Example toFixed_samples :
  map (fun x => toFixed x 2)
      [1.005; 0.005; 1.255; 8.345; 2.5; -0.001; PrimFloat.neg_zero; 1e21;
       PrimFloat.infinity]
  = ["1.00"; "0.01"; "1.25"; "8.35"; "2.50"; "-0.00"; "0.00"; "1e+21";
     "Infinity"].
Proof. vm_compute. reflexivity. Qed.

Example Math_max_samples :
  map (fun xs => Number_toString (Math_max xs))
      [[]; [1; 3; 2]; [1; PrimFloat.nan; 5]; [-2; -7]]
  = ["-Infinity"; "3"; "NaN"; "-2"].
Proof. vm_compute. reflexivity. Qed.

(** ** The orchestrator *)

Lemma valid_guard (st : State) :
  Spec.validInput st.(inputs) ->
  le st.(inputs).(totalFlow) 0
  || lt st.(inputs).(targetHumidity) 0
  || gt st.(inputs).(targetHumidity) 100 = false.
Proof.
  intros (Ht & Hl & Hu). unfold gt, le, lt in *.
  rewrite (FloatFacts.ltb_leb_false _ _ Ht).
  rewrite (FloatFacts.leb_ltb_false _ _ Hl).
  rewrite (FloatFacts.leb_ltb_false _ _ Hu).
  reflexivity.
Qed.

Lemma invalid_guard (st : State) :
  Spec.invalidInput st.(inputs) ->
  le st.(inputs).(totalFlow) 0
  || lt st.(inputs).(targetHumidity) 0
  || gt st.(inputs).(targetHumidity) 100 = true.
Proof.
  intros [H | [H | H]]; rewrite H.
  - reflexivity.
  - rewrite orb_true_r. reflexivity.
  - apply orb_true_r.
Qed.

(** The entry computed by the [map] callback is the one of 4.2. *)
Lemma mfcCValue_dilution (st : State) (c : number) :
  mfcCValue st c = Spec.dilution st.(inputs) st.(calibration) c.
Proof. reflexivity. Qed.

(** What a run leaves in [results] once the guard is passed. *)
Lemma flowResult_valid (st : State) :
  Spec.validInput st.(inputs) ->
  flowResult st =
    let mfcB := if lt (Spec.unclamped st.(inputs) st.(calibration)) 0 then 0
                else Spec.unclamped st.(inputs) st.(calibration) in
    let mfcC := map (mfcCValue st) st.(inputs).(concentrations) in
    let mfcA := st.(inputs).(totalFlow) - mfcB in
    {| mfcA := mfcA;
       mfcB := mfcB;
       mfcC := mfcC;
       isValid := true;
       warnings := Spec.warningsFor st.(inputs).(targetHumidity)
                     (Math_max (map flow mfcC)) mfcA |}.
Proof.
  intros H. unfold flowResult, calculateMFCValues.
  rewrite (valid_guard st H). cbv zeta. unfold setResults. cbn [results].
  unfold Spec.warningsFor, Spec.unclamped, push.
  f_equal.
  destruct (gt (targetHumidity (inputs st)) 80),
           (lt (targetHumidity (inputs st)) 10);
    match goal with |- context [if ?c then _ else _] =>
      destruct c end; reflexivity.
Qed.

Lemma flowResult_invalid (st : State) :
  Spec.invalidInput st.(inputs) -> flowResult st = Spec.invalidResult.
Proof.
  intros H. unfold flowResult, calculateMFCValues.
  rewrite (invalid_guard st H). reflexivity.
Qed.

(** [calculateMFCValues] writes [results] and nothing else. *)
Lemma calculateMFCValues_frame (st : State) :
  (calculateMFCValues st).(inputs) = st.(inputs)
  /\ (calculateMFCValues st).(timings) = st.(timings)
  /\ (calculateMFCValues st).(calibration) = st.(calibration)
  /\ (calculateMFCValues st).(csvData) = st.(csvData).
Proof.
  unfold calculateMFCValues.
  destruct (le _ 0 || lt _ 0 || gt _ 100); repeat split; reflexivity.
Qed.

Lemma generateCSV_invalid (now : string) (st : State) :
  st.(results).(isValid) = false -> generateCSV now st = "".
Proof.
  intros H. unfold generateCSV. rewrite H. reflexivity.
Qed.

(** C1.  When totalFlow <= 0, or targetHumidity is below 0 or above 100,
    [calculateMFCValues] leaves in [results] the record with isValid = false,
    mfcA = 0, mfcB = 0, no mfcC entry and the single warning "Invalid input
    parameters", and touches no other cell of the state; [generateCSV]
    returns the empty string on that state, and on any state whose result
    has isValid = false. *)
Theorem invalid_input_short_circuits (st : State) :
  Spec.invalidInput st.(inputs) ->
  flowResult st =
    {| mfcA := 0; mfcB := 0; mfcC := []; isValid := false;
       warnings := ["Invalid input parameters"] |}
  /\ ((calculateMFCValues st).(inputs) = st.(inputs)
      /\ (calculateMFCValues st).(timings) = st.(timings)
      /\ (calculateMFCValues st).(calibration) = st.(calibration)
      /\ (calculateMFCValues st).(csvData) = st.(csvData))
  /\ (forall now, generateCSV now (calculateMFCValues st) = "")
  /\ (forall now st', st'.(results).(isValid) = false -> generateCSV now st' = "").
Proof.
  intros H. pose proof (flowResult_invalid st H) as E.
  split; [ exact E | split; [ apply calculateMFCValues_frame | split ] ].
  - intros now. apply generateCSV_invalid.
    unfold flowResult in E. rewrite E. reflexivity.
  - intros now st'. apply generateCSV_invalid.
Qed.

Lemma invalid_input_short_circuits_witness :
  Spec.invalidInput negativeFlowState.(inputs)
  /\ flowResult negativeFlowState = Spec.invalidResult
  /\ generateCSV "2025-01-01T00:00:00.000Z"
       (calculateMFCValues negativeFlowState) = "".
Proof.
  assert (H : Spec.invalidInput negativeFlowState.(inputs))
    by (left; reflexivity).
  destruct (invalid_input_short_circuits negativeFlowState H)
    as (E & _ & C & _).
  split; [ exact H | split; [ exact E | apply C ] ].
Defined.

(** C2, as amended.  For totalFlow > 0 and 0 <= targetHumidity <= 100,
    mfcB is humiditySlope x targetHumidity + humidityIntercept clamped at 0
    (0 when that value is negative, the value itself when it is >= 0) and
    mfcA is the double subtraction totalFlow - mfcB.  When the unclamped
    value is negative, mfcB = 0, mfcA = totalFlow and mfcA + mfcB =
    totalFlow, exactly.  When it is >= 0 the sum mfcA + mfcB is not claimed
    to give back totalFlow: the subtraction rounds. *)
Theorem mfcB_clamped_mfcA_rest (st : State) :
  Spec.validInput st.(inputs) ->
  (flowResult st).(mfcB) =
    (if lt (Spec.unclamped st.(inputs) st.(calibration)) 0 then 0
     else Spec.unclamped st.(inputs) st.(calibration))
  /\ (flowResult st).(mfcA) = st.(inputs).(totalFlow) - (flowResult st).(mfcB)
  /\ (le 0 (Spec.unclamped st.(inputs) st.(calibration)) = true ->
      (flowResult st).(mfcB) = Spec.unclamped st.(inputs) st.(calibration))
  /\ (lt (Spec.unclamped st.(inputs) st.(calibration)) 0 = true ->
      (flowResult st).(mfcB) = 0
      /\ (flowResult st).(mfcA) = st.(inputs).(totalFlow)
      /\ (flowResult st).(mfcA) + (flowResult st).(mfcB)
         = st.(inputs).(totalFlow)).
Proof.
  intros H. rewrite (flowResult_valid st H). cbv zeta. cbn [mfcA mfcB].
  split; [ reflexivity | split; [ reflexivity | split ] ].
  - intros Hx. unfold lt, le in *.
    rewrite (FloatFacts.leb_ltb_false _ _ Hx). reflexivity.
  - intros Hx. rewrite Hx. rewrite FloatFacts.sub_0_r.
    split; [ reflexivity | split; [ reflexivity | ] ].
    apply FloatFacts.add_0_r_pos. destruct H as (Ht & _). exact Ht.
Qed.

Lemma mfcB_clamped_mfcA_rest_witness :
  Spec.validInput firstState.(inputs)
  /\ (flowResult firstState).(mfcB) = 180.2895
  /\ (flowResult firstState).(mfcA) = 500 - 180.2895.
Proof.
  assert (H : Spec.validInput firstState.(inputs))
    by (repeat split; reflexivity).
  destruct (mfcB_clamped_mfcA_rest firstState H) as (_ & Ea & Eb & _).
  split; [ exact H | ].
  assert (E : (flowResult firstState).(mfcB) = 180.2895)
    by (rewrite Eb; reflexivity).
  split; [ exact E | ].
  rewrite Ea, E. reflexivity.
Defined.

(** C2 fails as stated: at totalFlow = 436.3 and targetHumidity = 35, with
    the calibration of the program, the input is valid and the unclamped
    value 180.2895 is >= 0, yet mfcA = 436.3 - 180.2895 rounds to 256.0105
    and mfcA + mfcB = 436.29999999999995, which is not totalFlow. *)
Lemma sum_differs_from_totalFlow :
  Spec.validInput fractionalFlowState.(inputs)
  /\ le 0 (Spec.unclamped fractionalFlowState.(inputs)
                          fractionalFlowState.(calibration)) = true
  /\ Number_toString fractionalFlowState.(inputs).(totalFlow) = "436.3"
  /\ Number_toString (flowResult fractionalFlowState).(mfcB) = "180.2895"
  /\ Number_toString (flowResult fractionalFlowState).(mfcA) = "256.0105"
  /\ Number_toString
       ((flowResult fractionalFlowState).(mfcA)
        + (flowResult fractionalFlowState).(mfcB))
     = "436.29999999999995"
  /\ PrimFloat.eqb
       ((flowResult fractionalFlowState).(mfcA)
        + (flowResult fractionalFlowState).(mfcB))
       fractionalFlowState.(inputs).(totalFlow) = false
  /\ (flowResult fractionalFlowState).(mfcA)
     + (flowResult fractionalFlowState).(mfcB)
     <> fractionalFlowState.(inputs).(totalFlow).
Proof.
  repeat split; try (vm_compute; reflexivity).
  intros E.
  apply (f_equal Number_toString) in E. vm_compute in E. discriminate E.
Qed.

(** C3.  For a valid input, [results.mfcC] has one entry per element of
    [inputs.concentrations], in the same order: the entry at index i carries
    the concentration c found at index i, flow_standard =
    (c / 1000) x totalFlow / ch2oSourceConc, flow_desmos = flow_standard x
    ch2oCalibrationFactor, and flow = flow_desmos when useDesmosMath is set,
    flow_standard otherwise.  Nothing is removed, merged or reordered. *)
Theorem dilution_entries_in_order (st : State) :
  Spec.validInput st.(inputs) ->
  (flowResult st).(mfcC)
    = map (Spec.dilution st.(inputs) st.(calibration)) st.(inputs).(concentrations)
  /\ map concentration (flowResult st).(mfcC) = st.(inputs).(concentrations)
  /\ List.length (flowResult st).(mfcC) = List.length st.(inputs).(concentrations)
  /\ (forall i c,
        nth_error st.(inputs).(concentrations) i = Some c ->
        exists entry,
          nth_error (flowResult st).(mfcC) i = Some entry
          /\ entry.(concentration) = c
          /\ entry.(flow_standard)
             = Some ((c / 1000) * st.(inputs).(totalFlow)
                     / st.(inputs).(ch2oSourceConc))
          /\ entry.(flow_desmos)
             = Some ((c / 1000) * st.(inputs).(totalFlow)
                     / st.(inputs).(ch2oSourceConc)
                     * st.(calibration).(ch2oCalibrationFactor))
          /\ entry.(flow)
             = if st.(inputs).(useDesmosMath)
               then (c / 1000) * st.(inputs).(totalFlow)
                    / st.(inputs).(ch2oSourceConc)
                    * st.(calibration).(ch2oCalibrationFactor)
               else (c / 1000) * st.(inputs).(totalFlow)
                    / st.(inputs).(ch2oSourceConc)).
Proof.
  intros H. rewrite (flowResult_valid st H). cbv zeta. cbn [mfcC].
  split; [ | split; [ | split ] ].
  - apply map_ext. intros c. apply mfcCValue_dilution.
  - rewrite map_map. cbn [mfcCValue concentration]. apply map_id.
  - apply length_map.
  - intros i c Hc. exists (mfcCValue st c). split.
    + apply map_nth_error. exact Hc.
    + repeat split.
Qed.

Lemma dilution_entries_in_order_witness :
  Spec.validInput initialState.(inputs)
  /\ map concentration (flowResult initialState).(mfcC) = [50; 100; 200]
  /\ map (fun entry => toFixed entry.(flow) 9) (flowResult initialState).(mfcC)
     = ["4.672897196"; "9.345794393"; "18.691588785"].
Proof.
  assert (H : Spec.validInput initialState.(inputs))
    by (repeat split; reflexivity).
  destruct (dilution_entries_in_order initialState H) as (E & Ec & _).
  split; [ exact H | split; [ exact Ec | ] ].
  rewrite E. reflexivity.
Defined.

(** C4.  For a valid input the warnings are, in this order and each on its
    own condition: "Humidity >80% may cause condensation" when
    targetHumidity > 80, "Humidity <10% may be difficult to achieve" when
    targetHumidity < 10, and "Max MFC C flow (X SLPM) exceeds MFC A capacity
    (Y SLPM)" when the largest mfcC flow X exceeds mfcA = Y, both printed
    with two decimal places; there is no other warning. *)
Theorem warnings_in_fixed_order (st : State) :
  Spec.validInput st.(inputs) ->
  (flowResult st).(warnings) =
    ((if gt st.(inputs).(targetHumidity) 80
      then ["Humidity >80% may cause condensation"] else [])
     ++ (if lt st.(inputs).(targetHumidity) 10
         then ["Humidity <10% may be difficult to achieve"] else [])
     ++ (if gt (Math_max (map flow (flowResult st).(mfcC))) (flowResult st).(mfcA)
         then [("Max MFC C flow ("
                ++ toFixed (Math_max (map flow (flowResult st).(mfcC))) 2
                ++ " SLPM) exceeds MFC A capacity ("
                ++ toFixed (flowResult st).(mfcA) 2 ++ " SLPM)")%string]
         else []))%list.
Proof.
  intros H. rewrite (flowResult_valid st H). reflexivity.
Qed.

Lemma warnings_in_fixed_order_witness :
  Spec.validInput lowFlowState.(inputs)
  /\ (flowResult lowFlowState).(warnings)
     = ["Max MFC C flow (1.88 SLPM) exceeds MFC A capacity (-129.99 SLPM)"].
Proof.
  assert (H : Spec.validInput lowFlowState.(inputs))
    by (repeat split; reflexivity).
  split; [ exact H | ].
  rewrite (warnings_in_fixed_order lowFlowState H). reflexivity.
Defined.

(** C8.  The result of the flow computation is a function of [inputs] and
    [calibration] alone: two states that agree on these two cells get the
    same [results] (mfcA, mfcB, mfcC, isValid and warnings), whatever their
    timings, their previous result and their CSV text; and running
    [calculateMFCValues] again on its own output changes nothing. *)
Theorem flow_result_pure (st1 st2 : State) :
  st1.(inputs) = st2.(inputs) ->
  st1.(calibration) = st2.(calibration) ->
  flowResult st1 = flowResult st2
  /\ flowResult (calculateMFCValues st1) = flowResult st1
  /\ calculateMFCValues (calculateMFCValues st1) = calculateMFCValues st1.
Proof.
  intros Hi Hc.
  destruct st1 as [i1 t1 k1 r1 d1], st2 as [i2 t2 k2 r2 d2].
  cbn [inputs calibration] in Hi, Hc. subst i2 k2.
  unfold flowResult, calculateMFCValues. cbn [inputs calibration].
  destruct (le (totalFlow i1) 0 || lt (targetHumidity i1) 0
            || gt (targetHumidity i1) 100) eqn:G.
  - unfold setResults. cbn [inputs calibration results timings csvData].
    rewrite G. repeat split.
  - unfold setResults. cbn [inputs calibration results timings csvData].
    rewrite G. repeat split.
Qed.

Lemma flow_result_pure_witness :
  initialState.(inputs) = staleState.(inputs)
  /\ initialState.(calibration) = staleState.(calibration)
  /\ initialState.(results) <> staleState.(results)
  /\ flowResult initialState = flowResult staleState.
Proof.
  split; [ reflexivity | split; [ reflexivity | split ] ].
  - intros E. apply (f_equal isValid) in E. discriminate E.
  - apply (flow_result_pure initialState staleState); reflexivity.
Defined.

(** C10.  In every result of [calculateMFCValues]: if isValid is false the
    warnings are exactly ["Invalid input parameters"]; if isValid is true,
    "Invalid input parameters" is not among the warnings and there are at
    most two of them, since targetHumidity > 80 and targetHumidity < 10
    exclude each other. *)
Theorem isValid_and_warnings (st : State) :
  ((flowResult st).(isValid) = false ->
   (flowResult st).(warnings) = ["Invalid input parameters"])
  /\ ((flowResult st).(isValid) = true ->
      ~ In "Invalid input parameters" (flowResult st).(warnings)
      /\ (List.length (flowResult st).(warnings) <= 2)%nat)
  /\ (gt st.(inputs).(targetHumidity) 80 = true ->
      lt st.(inputs).(targetHumidity) 10 = true -> False).
Proof.
  split; [ | split ].
  - unfold flowResult, calculateMFCValues.
    destruct (le _ 0 || lt _ 0 || gt _ 100); cbn [setResults results isValid];
      [ reflexivity | discriminate ].
  - unfold flowResult, calculateMFCValues.
    destruct (le _ 0 || lt _ 0 || gt _ 100);
      cbn [setResults results isValid warnings]; [ discriminate | ].
    intros _.
    destruct (gt (targetHumidity (inputs st)) 80) eqn:H80;
      destruct (lt (targetHumidity (inputs st)) 10) eqn:H10;
      try (exfalso; exact (FloatFacts.gt80_lt10_absurd _ H80 H10));
      match goal with |- context [if ?c then _ else _] => destruct c end;
      unfold push; cbn [app List.length In]; (split; [ | lia ]);
      intros F; repeat (destruct F as [F | F]; [ discriminate F | ]);
      exact F.
  - apply FloatFacts.gt80_lt10_absurd.
Qed.

(** ** getTotalTime *)

(** C6.  [getTotalTime] returns "0" when there is no concentration, and
    otherwise (N x baselineDuration + N x exposureDuration +
    exposureDuration) / 60 printed with one decimal place, N being the
    number of concentrations; with three concentrations and both durations
    at 30 it returns "3.5". *)
Theorem getTotalTime_hours (st : State) :
  (st.(inputs).(concentrations) = [] -> getTotalTime st = "0")
  /\ (st.(inputs).(concentrations) <> [] ->
      getTotalTime st =
        toFixed
          ((of_nat (List.length st.(inputs).(concentrations))
              * st.(timings).(baselineDuration)
            + of_nat (List.length st.(inputs).(concentrations))
              * st.(timings).(exposureDuration)
            + st.(timings).(exposureDuration)) / 60) 1)
  /\ (List.length st.(inputs).(concentrations) = 3%nat ->
      st.(timings).(baselineDuration) = 30 ->
      st.(timings).(exposureDuration) = 30 ->
      getTotalTime st = "3.5").
Proof.
  unfold getTotalTime. split; [ | split ].
  - intros E. rewrite E. reflexivity.
  - intros E. destruct (concentrations (inputs st)) as [ | c l];
      [ congruence | reflexivity ].
  - intros E Eb Ee. rewrite E, Eb, Ee. reflexivity.
Qed.

(** At the initial state: three concentrations, 30 and 30 minutes. *)
Example getTotalTime_initial : getTotalTime initialState = "3.5".
Proof. reflexivity. Qed.

(** ** The source concentration *)

(** C7.  The validation does not look at ch2oSourceConc: for every input
    with totalFlow > 0 and 0 <= targetHumidity <= 100 the result has
    isValid = true, and this whatever value is put in place of
    ch2oSourceConc; each flow_standard is the plain quotient
    (c / 1000) x totalFlow / ch2oSourceConc and sits in [results.mfcC].  So
    a source concentration of 0 never gives a finite flow_standard, and
    gives an infinite one as soon as the numerator is positive; a negative
    source concentration (other than -Infinity) under a positive numerator
    gives a flow_standard that carries the minus sign: a negative number or
    -Infinity, or -0 when the quotient underflows. *)
Theorem source_concentration_unguarded (st : State) :
  Spec.validInput st.(inputs) ->
  (flowResult st).(isValid) = true
  /\ (forall source, (flowResult (withSource st source)).(isValid) = true)
  /\ (forall i c,
        nth_error st.(inputs).(concentrations) i = Some c ->
        exists entry,
          nth_error (flowResult st).(mfcC) i = Some entry
          /\ entry.(flow_standard)
             = Some ((c / 1000) * st.(inputs).(totalFlow)
                     / st.(inputs).(ch2oSourceConc))
          /\ (PrimFloat.eqb st.(inputs).(ch2oSourceConc) 0 = true ->
              PrimFloat.is_finite
                ((c / 1000) * st.(inputs).(totalFlow)
                 / st.(inputs).(ch2oSourceConc)) = false)
          /\ (gt ((c / 1000) * st.(inputs).(totalFlow)) 0 = true ->
              PrimFloat.eqb st.(inputs).(ch2oSourceConc) 0 = true ->
              PrimFloat.is_infinity
                ((c / 1000) * st.(inputs).(totalFlow)
                 / st.(inputs).(ch2oSourceConc)) = true)
          /\ (gt ((c / 1000) * st.(inputs).(totalFlow)) 0 = true ->
              lt st.(inputs).(ch2oSourceConc) 0 = true ->
              lt PrimFloat.neg_infinity st.(inputs).(ch2oSourceConc) = true ->
              (lt ((c / 1000) * st.(inputs).(totalFlow)
                   / st.(inputs).(ch2oSourceConc)) 0 = true
               \/ (c / 1000) * st.(inputs).(totalFlow)
                  / st.(inputs).(ch2oSourceConc) = PrimFloat.neg_zero)
              /\ PrimFloat.get_sign
                   ((c / 1000) * st.(inputs).(totalFlow)
                    / st.(inputs).(ch2oSourceConc)) = true)).
Proof.
  intros H. split; [ | split ].
  - rewrite (flowResult_valid st H). reflexivity.
  - intros source.
    rewrite (flowResult_valid (withSource st source)); [ reflexivity | exact H ].
  - intros i c Hc. exists (mfcCValue st c).
    split; [ | split; [ | split; [ | split ] ] ].
    + rewrite (flowResult_valid st H). cbv zeta. cbn [mfcC].
      apply map_nth_error. exact Hc.
    + reflexivity.
    + apply FloatFacts.div_zero_not_finite.
    + intros Hn Hz. apply FloatFacts.div_pos_zero; assumption.
    + intros Hn Hs Hf.
      pose proof (FloatFacts.div_pos_neg _ _ Hn Hs Hf) as S.
      split; [ apply FloatFacts.sign_set_negative, S
             | apply FloatFacts.sign_set, S ].
Qed.

Lemma source_concentration_unguarded_witness :
  Spec.validInput zeroSourceState.(inputs)
  /\ (flowResult zeroSourceState).(isValid) = true
  /\ map (fun entry => toFixed entry.(flow) 9) (flowResult zeroSourceState).(mfcC)
     = ["Infinity"; "Infinity"; "Infinity"].
Proof.
  assert (H : Spec.validInput zeroSourceState.(inputs))
    by (repeat split; reflexivity).
  destruct (source_concentration_unguarded zeroSourceState H) as (V & _ & _).
  split; [ exact H | split; [ exact V | reflexivity ] ].
Defined.

(** The two degenerate sources at the initial inputs: the flows, as the
    CSV would print them. *)
Example zero_source_flows :
  map (fun entry => Number_toString entry.(flow)) (flowResult zeroSourceState).(mfcC)
  = ["Infinity"; "Infinity"; "Infinity"].
Proof. reflexivity. Qed.

Example negative_source_flows :
  map (fun entry => toFixed entry.(flow) 9) (flowResult negativeSourceState).(mfcC)
  = ["-4.672897196"; "-9.345794393"; "-18.691588785"].
Proof. reflexivity. Qed.

(** ** The CSV timeline *)

Lemma append_assoc (s1 s2 s3 : string) :
  (s1 ++ s2) ++ s3 = s1 ++ (s2 ++ s3).
Proof.
  induction s1 as [ | c s1 IH]; simpl; [ reflexivity | ].
  rewrite IH. reflexivity.
Qed.

Lemma append_nil_r (s : string) : s ++ "" = s.
Proof.
  induction s as [ | c s IH]; simpl; [ reflexivity | ].
  rewrite IH. reflexivity.
Qed.

Section Rows.

Variables bd ed a b : number.

Lemma formatRow_baseline (t : number) :
  Timeline.formatRow (Timeline.baselineAt t a b) = baselineRow t a b.
Proof. reflexivity. Qed.

(** The loop over [mfcC], started at step [i] with the text [s], followed
    by the two closing rows, appends the formatted [stepRows]. *)
Lemma forEach_stepRows (entries : list ConcData) (s : string) (i : nat) :
  (let '(csvContent, currentTime) :=
     fold_left (concStep ed a b) entries (s, Timeline.cursor bd ed i) in
   (csvContent ++ baselineRow currentTime a b)
   ++ Number_toString currentTime ++ ",0,0,0" ++ LF)
  = s ++ Timeline.joinRows (Timeline.stepRows bd ed a b i entries).
Proof.
  revert s i. induction entries as [ | entry rest IH]; intros s i.
  - cbn [fold_left Timeline.stepRows Timeline.joinRows fold_right].
    rewrite formatRow_baseline. unfold Timeline.formatRow.
    cbn [Timeline.kind Timeline.shutdownAt Timeline.time].
    rewrite append_nil_r. apply append_assoc.
  - cbn [fold_left Timeline.stepRows Timeline.joinRows fold_right].
    change (concStep ed a b (s, Timeline.cursor bd ed i) entry)
      with ((s ++ baselineRow (Timeline.cursor bd ed i) a b)
            ++ Timeline.formatRow
                 (Timeline.exposureAt (Timeline.cursor bd ed i) a b entry),
            Timeline.cursor bd ed (S i)).
    rewrite (IH _ (S i)). rewrite formatRow_baseline.
    rewrite !append_assoc. reflexivity.
Qed.

Lemma stepRows_length (entries : list ConcData) (i : nat) :
  List.length (Timeline.stepRows bd ed a b i entries)
  = (2 * List.length entries + 2)%nat.
Proof.
  revert i. induction entries as [ | entry rest IH]; intros i; simpl.
  - reflexivity.
  - rewrite IH. lia.
Qed.

(** Even positions hold the baseline rows, the closing one included. *)
Lemma stepRows_baseline (entries : list ConcData) (i j : nat) :
  (j <= List.length entries)%nat ->
  nth_error (Timeline.stepRows bd ed a b i entries) (2 * j)
  = Some (Timeline.baselineAt (Timeline.cursor bd ed (i + j)) a b).
Proof.
  revert i j. induction entries as [ | entry rest IH]; intros i j Hj.
  - simpl in Hj. assert (j = 0)%nat as -> by lia.
    rewrite Nat.add_0_r. reflexivity.
  - destruct j as [ | j].
    + rewrite Nat.add_0_r. reflexivity.
    + replace (2 * S j)%nat with (S (S (2 * j))) by lia.
      cbn [Timeline.stepRows nth_error].
      rewrite (IH (S i) j) by (simpl in Hj; lia).
      replace (S i + j)%nat with (i + S j)%nat by lia. reflexivity.
Qed.

(** Odd positions hold the exposure rows, in the order of the entries. *)
Lemma stepRows_exposure (entries : list ConcData) (i j : nat) (entry : ConcData) :
  nth_error entries j = Some entry ->
  nth_error (Timeline.stepRows bd ed a b i entries) (2 * j + 1)
  = Some (Timeline.exposureAt (Timeline.cursor bd ed (i + j)) a b entry).
Proof.
  revert i j. induction entries as [ | e0 rest IH]; intros i j Hj.
  - destruct j; discriminate Hj.
  - destruct j as [ | j].
    + cbn in Hj. injection Hj as ->. rewrite Nat.add_0_r. reflexivity.
    + replace (2 * S j + 1)%nat with (S (S (2 * j + 1))) by lia.
      cbn [Timeline.stepRows nth_error]. cbn [nth_error] in Hj.
      rewrite (IH (S i) j Hj).
      replace (S i + j)%nat with (i + S j)%nat by lia. reflexivity.
Qed.

Lemma stepRows_shutdown (entries : list ConcData) (i : nat) :
  nth_error (Timeline.stepRows bd ed a b i entries)
            (2 * List.length entries + 1)
  = Some (Timeline.shutdownAt (Timeline.cursor bd ed (i + List.length entries))).
Proof.
  revert i. induction entries as [ | e0 rest IH]; intros i.
  - rewrite Nat.add_0_r. reflexivity.
  - cbn [List.length].
    replace (2 * S (List.length rest) + 1)%nat
      with (S (S (2 * List.length rest + 1))) by lia.
    cbn [Timeline.stepRows nth_error]. rewrite (IH (S i)).
    replace (S i + List.length rest)%nat
      with (i + S (List.length rest))%nat by lia.
    reflexivity.
Qed.

(** A baseline row always carries the channels (mfcA, mfcB, 0). *)
Lemma stepRows_baseline_channels (entries : list ConcData) (i : nat)
    (r : Timeline.Row) :
  In r (Timeline.stepRows bd ed a b i entries) ->
  Timeline.kind r = Timeline.Baseline ->
  r = Timeline.baselineAt (Timeline.time r) a b.
Proof.
  revert i. induction entries as [ | e0 rest IH]; intros i Hin Hk.
  - destruct Hin as [<- | [<- | []]]; [ reflexivity | discriminate Hk ].
  - destruct Hin as [<- | [<- | Hin]];
      [ reflexivity | discriminate Hk | exact (IH (S i) Hin Hk) ].
Qed.

End Rows.

(** The text [generateCSV] returns on a valid result: the header, then the
    formatted rows of the timeline. *)
Lemma generateCSV_joinRows (now : string) (st : State) :
  st.(results).(isValid) = true ->
  generateCSV now st = csvHeader now st ++ Timeline.joinRows (Timeline.rows st).
Proof.
  intros V. unfold generateCSV. rewrite V. cbn [negb]. cbv zeta.
  pose proof (forEach_stepRows
                st.(timings).(baselineDuration) st.(timings).(exposureDuration)
                st.(results).(mfcA) st.(results).(mfcB) st.(results).(mfcC)
                (csvHeader now st ++ baselineRow 0 st.(results).(mfcA)
                                                   st.(results).(mfcB)) 0) as E.
  cbn [Timeline.cursor] in E.
  destruct (fold_left _ _ _) as [csvContent currentTime].
  rewrite E. unfold Timeline.rows. cbn [Timeline.joinRows fold_right].
  rewrite formatRow_baseline. apply append_assoc.
Qed.

(** C5.  On a valid result with N mfcC entries, the text after the header
    row is made of exactly 2 x N + 3 rows, produced with a time cursor
    starting at 0: a baseline row (0, mfcA, mfcB, 0), after which the cursor
    advances by baselineDuration x 60; for the entry of index i a baseline
    row and then an exposure row (mfcA - flow, mfcB, flow), both at the
    cursor of step i, after which the cursor advances by exposureDuration x
    60; last a baseline row and a shutdown row (0, 0, 0) at the final
    cursor.  mfcA and mfcB are printed with 2 decimal places, the flow of an
    exposure row with 9, and the time as the plain number. *)
Theorem generateCSV_timeline (now : string) (st : State) :
  st.(results).(isValid) = true ->
  generateCSV now st = csvHeader now st ++ Timeline.joinRows (Timeline.rows st)
  /\ List.length (Timeline.rows st)
     = (2 * List.length st.(results).(mfcC) + 3)%nat
  /\ nth_error (Timeline.rows st) 0
     = Some (Timeline.baselineAt 0 st.(results).(mfcA) st.(results).(mfcB))
  /\ (forall i entry,
        nth_error st.(results).(mfcC) i = Some entry ->
        nth_error (Timeline.rows st) (2 * i + 1)
        = Some (Timeline.baselineAt
                  (Timeline.cursor st.(timings).(baselineDuration)
                                   st.(timings).(exposureDuration) i)
                  st.(results).(mfcA) st.(results).(mfcB))
        /\ nth_error (Timeline.rows st) (2 * i + 2)
           = Some (Timeline.exposureAt
                     (Timeline.cursor st.(timings).(baselineDuration)
                                      st.(timings).(exposureDuration) i)
                     st.(results).(mfcA) st.(results).(mfcB) entry))
  /\ nth_error (Timeline.rows st) (2 * List.length st.(results).(mfcC) + 1)
     = Some (Timeline.baselineAt
               (Timeline.cursor st.(timings).(baselineDuration)
                                st.(timings).(exposureDuration)
                                (List.length st.(results).(mfcC)))
               st.(results).(mfcA) st.(results).(mfcB))
  /\ nth_error (Timeline.rows st) (2 * List.length st.(results).(mfcC) + 2)
     = Some (Timeline.shutdownAt
               (Timeline.cursor st.(timings).(baselineDuration)
                                st.(timings).(exposureDuration)
                                (List.length st.(results).(mfcC))))
  /\ (forall t x y,
        Timeline.formatRow (Timeline.baselineAt t x y)
        = Number_toString t ++ "," ++ toFixed x 2 ++ "," ++ toFixed y 2
          ++ ",0" ++ LF)
  /\ (forall t x y entry,
        Timeline.formatRow (Timeline.exposureAt t x y entry)
        = Number_toString t ++ "," ++ toFixed (x - entry.(flow)) 2 ++ ","
          ++ toFixed y 2 ++ "," ++ toFixed entry.(flow) 9 ++ LF)
  /\ (forall t,
        Timeline.formatRow (Timeline.shutdownAt t)
        = Number_toString t ++ ",0,0,0" ++ LF).
Proof.
  intros V. split; [ apply generateCSV_joinRows, V | ].
  unfold Timeline.rows.
  split; [ cbn [List.length]; rewrite stepRows_length; lia | ].
  split; [ reflexivity | ].
  split.
  { intros i entry Hi.
    assert (Hlt : (i < List.length st.(results).(mfcC))%nat)
      by (apply nth_error_Some; congruence).
    split.
    - replace (2 * i + 1)%nat with (S (2 * i)) by lia. cbn [nth_error].
      rewrite stepRows_baseline by lia. reflexivity.
    - replace (2 * i + 2)%nat with (S (2 * i + 1)) by lia. cbn [nth_error].
      rewrite (stepRows_exposure _ _ _ _ _ _ _ entry Hi). reflexivity. }
  split.
  { replace (2 * List.length st.(results).(mfcC) + 1)%nat
      with (S (2 * List.length st.(results).(mfcC))) by lia.
    cbn [nth_error]. rewrite stepRows_baseline by lia. reflexivity. }
  split.
  { replace (2 * List.length st.(results).(mfcC) + 2)%nat
      with (S (2 * List.length st.(results).(mfcC) + 1)) by lia.
    cbn [nth_error]. rewrite stepRows_shutdown. reflexivity. }
  repeat split.
Qed.

Lemma generateCSV_timeline_witness :
  firstState.(results).(isValid) = true
  /\ List.length (Timeline.rows firstState) = 9%nat
  /\ map Timeline.formatRow (Timeline.rows firstState)
     = [ "0,319.71,180.29,0" ++ LF;
         "1800,319.71,180.29,0" ++ LF;
         "1800,315.04,180.29,4.672897196" ++ LF;
         "3600,319.71,180.29,0" ++ LF;
         "3600,310.36,180.29,9.345794393" ++ LF;
         "5400,319.71,180.29,0" ++ LF;
         "5400,301.02,180.29,18.691588785" ++ LF;
         "7200,319.71,180.29,0" ++ LF;
         "7200,0,0,0" ++ LF ]
  /\ generateCSV "2025-01-01T00:00:00.000Z" firstState
     = csvHeader "2025-01-01T00:00:00.000Z" firstState
       ++ Timeline.joinRows (Timeline.rows firstState).
Proof.
  assert (V : firstState.(results).(isValid) = true) by reflexivity.
  destruct (generateCSV_timeline "2025-01-01T00:00:00.000Z" firstState V)
    as (E & L & _).
  split; [ exact V | split; [ exact L | split; [ reflexivity | exact E ] ] ].
Defined.

(** The header of the CSV at the initial inputs. *)
Example csvHeader_initial :
  csvHeader "2025-01-01T00:00:00.000Z" firstState
  = "# Alicat SSCM MFC Configuration" ++ LF
    ++ "# Target Humidity: 35% RH" ++ LF
    ++ "# Total Flow: 500 SLPM" ++ LF
    ++ "# CH2O Source Concentration: 5.35 ppm" ++ LF
    ++ "# Generated: 2025-01-01T00:00:00.000Z" ++ LF
    ++ "#" ++ LF
    ++ "# Protocol: Baseline -> Concentration Steps -> Shutdown" ++ LF
    ++ "# MFC A: Dry air, MFC B: Humid air, MFC C: CH2O source" ++ LF
    ++ "#" ++ LF
    ++ "Time,MFC A,MFC B,MFC C" ++ LF.
Proof. reflexivity. Qed.

(** C9, as amended.  For the mfcC entry of index i of a valid result, the
    CSV has, one after the other, a baseline row with channels
    (mfcA, mfcB, 0), the exposure row with channels
    (mfcA - flow, mfcB, flow), and another baseline row with channels
    (mfcA, mfcB, 0): channel B is the same in the three rows and the flow of
    channel C is taken off channel A by a double subtraction.  All baseline
    rows have the same three-channel sum; the sum of the exposure row is
    (mfcA - flow) + mfcB + flow in double arithmetic, and it is the sum of
    the baseline rows when flow is 0.  For other flows the two sums are not
    claimed equal: the subtraction and the additions round. *)
Theorem exposure_row_channels (now : string) (st : State)
    (i : nat) (entry : ConcData) :
  st.(results).(isValid) = true ->
  nth_error st.(results).(mfcC) i = Some entry ->
  generateCSV now st = csvHeader now st ++ Timeline.joinRows (Timeline.rows st)
  /\ exists before exposure after,
       nth_error (Timeline.rows st) (2 * i + 1) = Some before
       /\ nth_error (Timeline.rows st) (2 * i + 2) = Some exposure
       /\ nth_error (Timeline.rows st) (2 * i + 3) = Some after
       /\ Timeline.kind before = Timeline.Baseline
       /\ Timeline.kind exposure = Timeline.Exposure
       /\ Timeline.kind after = Timeline.Baseline
       /\ (Timeline.chA before, Timeline.chB before, Timeline.chC before)
          = (st.(results).(mfcA), st.(results).(mfcB), 0)
       /\ (Timeline.chA exposure, Timeline.chB exposure, Timeline.chC exposure)
          = (st.(results).(mfcA) - entry.(flow), st.(results).(mfcB),
             entry.(flow))
       /\ (Timeline.chA after, Timeline.chB after, Timeline.chC after)
          = (st.(results).(mfcA), st.(results).(mfcB), 0)
       /\ Timeline.channelSum before = Timeline.channelSum after
       /\ Timeline.channelSum exposure
          = st.(results).(mfcA) - entry.(flow) + st.(results).(mfcB)
            + entry.(flow)
       /\ (entry.(flow) = 0 ->
           Timeline.channelSum exposure = Timeline.channelSum before)
       /\ (forall r,
             In r (Timeline.rows st) ->
             Timeline.kind r = Timeline.Baseline ->
             Timeline.channelSum r = Timeline.channelSum before).
Proof.
  intros V Hi. split; [ apply generateCSV_joinRows, V | ].
  assert (B : forall r,
             In r (Timeline.rows st) ->
             Timeline.kind r = Timeline.Baseline ->
             Timeline.channelSum r
             = st.(results).(mfcA) + st.(results).(mfcB) + 0).
  { intros r [<- | Hin] Hk; [ reflexivity | ].
    rewrite (stepRows_baseline_channels _ _ _ _ _ _ r Hin Hk). reflexivity. }
  assert (Hlt : (i < List.length st.(results).(mfcC))%nat)
    by (apply nth_error_Some; congruence).
  set (bd := st.(timings).(baselineDuration)).
  set (ed := st.(timings).(exposureDuration)).
  exists (Timeline.baselineAt (Timeline.cursor bd ed i)
            st.(results).(mfcA) st.(results).(mfcB)),
         (Timeline.exposureAt (Timeline.cursor bd ed i)
            st.(results).(mfcA) st.(results).(mfcB) entry),
         (Timeline.baselineAt (Timeline.cursor bd ed (S i))
            st.(results).(mfcA) st.(results).(mfcB)).
  unfold Timeline.rows. fold bd ed.
  split.
  { replace (2 * i + 1)%nat with (S (2 * i)) by lia. cbn [nth_error].
    rewrite stepRows_baseline by lia. reflexivity. }
  split.
  { replace (2 * i + 2)%nat with (S (2 * i + 1)) by lia. cbn [nth_error].
    rewrite (stepRows_exposure _ _ _ _ _ _ _ entry Hi). reflexivity. }
  split.
  { replace (2 * i + 3)%nat with (S (2 * S i)) by lia. cbn [nth_error].
    rewrite stepRows_baseline by lia. reflexivity. }
  repeat split.
  - intros F. unfold Timeline.channelSum.
    cbn [Timeline.exposureAt Timeline.baselineAt
         Timeline.chA Timeline.chB Timeline.chC].
    rewrite F, FloatFacts.sub_0_r. reflexivity.
  - intros r Hin Hk. rewrite (B r Hin Hk). reflexivity.
Qed.

Lemma exposure_row_channels_witness :
  firstState.(results).(isValid) = true
  /\ (exists entry, nth_error firstState.(results).(mfcC) 0 = Some entry)
  /\ exists before exposure after,
       nth_error (Timeline.rows firstState) 1 = Some before
       /\ nth_error (Timeline.rows firstState) 2 = Some exposure
       /\ nth_error (Timeline.rows firstState) 3 = Some after
       /\ Timeline.formatRow before = "1800,319.71,180.29,0" ++ LF
       /\ Timeline.formatRow exposure = "1800,315.04,180.29,4.672897196" ++ LF
       /\ Timeline.formatRow after = "3600,319.71,180.29,0" ++ LF.
Proof.
  assert (V : firstState.(results).(isValid) = true) by reflexivity.
  split; [ exact V | ].
  split; [ eexists; reflexivity | ].
  destruct (exposure_row_channels "2025-01-01T00:00:00.000Z" firstState 0
              (mfcCValue initialState 50) V eq_refl)
    as (_ & before & exposure & after & E1 & E2 & E3 & _).
  exists before, exposure, after.
  split; [ exact E1 | split; [ exact E2 | split; [ exact E3 | ] ] ].
  cbn in E1, E2, E3.
  injection E1 as <-. injection E2 as <-. injection E3 as <-.
  repeat split.
Defined.

(** C9 fails as stated: at the initial state of the component, on the first
    concentration (50 ppb, flow 4.672897196261682), the baseline row has
    channels (319.7105, 180.2895, 0), whose sum is 500, and the exposure row
    (315.03760280373837, 180.2895, 4.672897196261682), whose sum is
    500.00000000000006, whichever way the three terms are added. *)
Lemma exposure_sum_differs_from_baseline :
  firstState.(results).(isValid) = true
  /\ option_map (fun r => (Timeline.kind r,
                           Number_toString (Timeline.chA r),
                           Number_toString (Timeline.chB r),
                           Number_toString (Timeline.chC r),
                           Number_toString (Timeline.channelSum r)))
       (nth_error (Timeline.rows firstState) 1)
     = Some (Timeline.Baseline, "319.7105", "180.2895", "0", "500")
  /\ option_map (fun r => (Timeline.kind r,
                           Number_toString (Timeline.chA r),
                           Number_toString (Timeline.chB r),
                           Number_toString (Timeline.chC r),
                           Number_toString (Timeline.channelSum r)))
       (nth_error (Timeline.rows firstState) 2)
     = Some (Timeline.Exposure, "315.03760280373837", "180.2895",
             "4.672897196261682", "500.00000000000006")
  /\ (forall before exposure,
        nth_error (Timeline.rows firstState) 1 = Some before ->
        nth_error (Timeline.rows firstState) 2 = Some exposure ->
        PrimFloat.eqb (Timeline.channelSum exposure)
                      (Timeline.channelSum before) = false
        /\ PrimFloat.eqb
             (Timeline.chA exposure
              + (Timeline.chB exposure + Timeline.chC exposure))
             (Timeline.channelSum before) = false
        /\ Timeline.channelSum exposure <> Timeline.channelSum before).
Proof.
  split; [ reflexivity | ].
  split; [ vm_compute; reflexivity | ].
  split; [ vm_compute; reflexivity | ].
  intros before exposure E1 E2.
  cbn in E1, E2. injection E1 as <-. injection E2 as <-.
  split; [ vm_compute; reflexivity | ].
  split; [ vm_compute; reflexivity | ].
  intros E. apply (f_equal Number_toString) in E.
  vm_compute in E. discriminate E.
Qed.

(** ** Order facts on binary64 numbers *)

Module FloatOrder.

Ltac cmp_cases :=
  repeat match goal with
  | H : context [Z.compare ?a ?b] |- _ =>
      destruct (Z.compare_spec a b); try discriminate H
  | H : context [Pos.compare_cont Eq ?a ?b] |- _ =>
      change (Pos.compare_cont Eq a b) with (Pos.compare a b) in H;
      destruct (Pos.compare_spec a b); try discriminate H
  | |- context [Z.compare ?a ?b] =>
      destruct (Z.compare_spec a b)
  | |- context [Pos.compare_cont Eq ?a ?b] =>
      change (Pos.compare_cont Eq a b) with (Pos.compare a b);
      destruct (Pos.compare_spec a b)
  end.

(** [<] followed by [<] or [==] is [<]. *)
Lemma SFcompare_lt_trans (x y z : spec_float) :
  SFcompare x y = Some Lt ->
  SFcompare y z = Some Lt \/ SFcompare y z = Some Eq ->
  SFcompare x z = Some Lt.
Proof.
  destruct x as [sx | sx | | sx mx ex], y as [sy | sy | | sy my ey],
           z as [sz | sz | | sz mz ez];
    simpl; intros H1 [H2 | H2]; try discriminate;
    repeat match goal with s : bool |- _ => destruct s end;
    simpl in *; try discriminate; try reflexivity;
    cmp_cases; simpl; subst; try reflexivity; try discriminate; try lia.
Qed.

(** Two numbers that are not NaN compare. *)
Lemma SFcompare_total (x y : spec_float) :
  x <> S754_nan -> y <> S754_nan -> exists c, SFcompare x y = Some c.
Proof.
  destruct x as [sx | sx | | sx mx ex], y as [sy | sy | | sy my ey];
    simpl; intros Hx Hy; try congruence; eauto.
Qed.

Lemma is_nan_true (x : float) :
  PrimFloat.is_nan x = true -> Prim2SF x = S754_nan.
Proof.
  unfold PrimFloat.is_nan. rewrite FloatAxioms.eqb_spec. unfold SFeqb.
  destruct (Prim2SF x) as [s | s | | s m e] eqn:E; [ | | reflexivity | ];
    (rewrite FloatFacts.SFcompare_refl by discriminate); discriminate.
Qed.

Lemma is_nan_false (x : float) :
  PrimFloat.is_nan x = false -> Prim2SF x <> S754_nan.
Proof.
  unfold PrimFloat.is_nan. rewrite FloatAxioms.eqb_spec. unfold SFeqb.
  intros H E. rewrite E in H. discriminate H.
Qed.

Lemma is_nan_intro (x : float) :
  Prim2SF x = S754_nan -> PrimFloat.is_nan x = true.
Proof.
  intros E. unfold PrimFloat.is_nan.
  rewrite FloatAxioms.eqb_spec, E. reflexivity.
Qed.

(** Away from NaN, [x <= y] is the negation of [y < x]. *)
Lemma leb_negb_ltb (x y : float) :
  PrimFloat.is_nan x = false -> PrimFloat.is_nan y = false ->
  PrimFloat.leb x y = negb (PrimFloat.ltb y x).
Proof.
  intros Hx Hy. rewrite FloatAxioms.leb_spec, FloatAxioms.ltb_spec.
  unfold SFleb, SFltb.
  rewrite (FloatFacts.SFcompare_antisym (Prim2SF x) (Prim2SF y)).
  destruct (SFcompare_total _ _ (is_nan_false x Hx) (is_nan_false y Hy))
    as [[ | | ] ->]; reflexivity.
Qed.


(** A comparison with NaN is false. *)
Lemma ltb_nan_l (x y : float) :
  PrimFloat.is_nan x = true -> PrimFloat.ltb x y = false.
Proof.
  intros H. rewrite FloatAxioms.ltb_spec, (is_nan_true x H). reflexivity.
Qed.

Lemma ltb_nan_r (x y : float) :
  PrimFloat.is_nan y = true -> PrimFloat.ltb x y = false.
Proof.
  intros H. rewrite FloatAxioms.ltb_spec, (is_nan_true y H).
  unfold SFltb, SFcompare. destruct (Prim2SF x); reflexivity.
Qed.

Lemma leb_nan_l (x y : float) :
  PrimFloat.is_nan x = true -> PrimFloat.leb x y = false.
Proof.
  intros H. rewrite FloatAxioms.leb_spec, (is_nan_true x H). reflexivity.
Qed.

Lemma leb_nan_r (x y : float) :
  PrimFloat.is_nan y = true -> PrimFloat.leb x y = false.
Proof.
  intros H. rewrite FloatAxioms.leb_spec, (is_nan_true y H).
  unfold SFleb, SFcompare. destruct (Prim2SF x); reflexivity.
Qed.

Lemma ltb_trans (x y z : float) :
  PrimFloat.ltb x y = true -> PrimFloat.ltb y z = true ->
  PrimFloat.ltb x z = true.
Proof.
  rewrite !FloatAxioms.ltb_spec. unfold SFltb. intros H1 H2.
  rewrite (SFcompare_lt_trans (Prim2SF x) (Prim2SF y) (Prim2SF z)).
  - reflexivity.
  - destruct (SFcompare (Prim2SF x) (Prim2SF y)) as [[ | | ] | ];
      try discriminate; reflexivity.
  - left. destruct (SFcompare (Prim2SF y) (Prim2SF z)) as [[ | | ] | ];
      try discriminate; reflexivity.
Qed.

Lemma ltb_leb_trans (x y z : float) :
  PrimFloat.ltb x y = true -> PrimFloat.leb y z = true ->
  PrimFloat.ltb x z = true.
Proof.
  rewrite !FloatAxioms.ltb_spec, FloatAxioms.leb_spec.
  unfold SFltb, SFleb. intros H1 H2.
  rewrite (SFcompare_lt_trans (Prim2SF x) (Prim2SF y) (Prim2SF z)).
  - reflexivity.
  - destruct (SFcompare (Prim2SF x) (Prim2SF y)) as [[ | | ] | ];
      try discriminate; reflexivity.
  - destruct (SFcompare (Prim2SF y) (Prim2SF z)) as [[ | | ] | ];
      try discriminate; auto.
Qed.

(** NaN goes through the four operations. *)
Lemma mul_nan_r (x y : float) :
  PrimFloat.is_nan y = true -> PrimFloat.is_nan (x * y) = true.
Proof.
  intros H. apply is_nan_intro.
  rewrite FloatAxioms.mul_spec, (is_nan_true y H).
  unfold SF64mul, SFmul. destruct (Prim2SF x); reflexivity.
Qed.

Lemma mul_nan_l (x y : float) :
  PrimFloat.is_nan x = true -> PrimFloat.is_nan (x * y) = true.
Proof.
  intros H. apply is_nan_intro.
  rewrite FloatAxioms.mul_spec, (is_nan_true x H). reflexivity.
Qed.

Lemma add_nan_l (x y : float) :
  PrimFloat.is_nan x = true -> PrimFloat.is_nan (x + y) = true.
Proof.
  intros H. apply is_nan_intro.
  rewrite FloatAxioms.add_spec, (is_nan_true x H). reflexivity.
Qed.

Lemma sub_nan_l (x y : float) :
  PrimFloat.is_nan x = true -> PrimFloat.is_nan (x - y) = true.
Proof.
  intros H. apply is_nan_intro.
  rewrite FloatAxioms.sub_spec, (is_nan_true x H). reflexivity.
Qed.

Lemma sub_nan_r (x y : float) :
  PrimFloat.is_nan y = true -> PrimFloat.is_nan (x - y) = true.
Proof.
  intros H. apply is_nan_intro.
  rewrite FloatAxioms.sub_spec, (is_nan_true y H).
  unfold SF64sub, SFsub. destruct (Prim2SF x); reflexivity.
Qed.

Lemma div_nan_l (x y : float) :
  PrimFloat.is_nan x = true -> PrimFloat.is_nan (x / y) = true.
Proof.
  intros H. apply is_nan_intro.
  rewrite FloatAxioms.div_spec, (is_nan_true x H). reflexivity.
Qed.

(** *** Math.max *)

Lemma max_step_not_nan (h x : float) :
  PrimFloat.is_nan h = false -> PrimFloat.is_nan x = false ->
  PrimFloat.is_nan (max_step h x) = false.
Proof.
  intros Hh Hx. unfold max_step. rewrite Hh, Hx.
  destruct (_ && _); [ reflexivity | ].
  destruct (PrimFloat.ltb h x); assumption.
Qed.

(** One step of the maximum, seen from below: [a] is under the new highest
    value when it is under the old one or under the new element. *)
Lemma max_step_above (a h x : float) :
  PrimFloat.is_nan h = false -> PrimFloat.is_nan x = false ->
  PrimFloat.ltb a (max_step h x) = PrimFloat.ltb a h || PrimFloat.ltb a x.
Proof.
  intros Hh Hx. unfold max_step. rewrite Hh, Hx.
  destruct (PrimFloat.Leibniz.eqb x PrimFloat.zero
            && PrimFloat.Leibniz.eqb h PrimFloat.neg_zero) eqn:Z.
  - apply andb_true_iff in Z. destruct Z as [Zx Zh].
    apply FloatAxioms.Leibniz.eqb_spec in Zx, Zh. subst x h.
    rewrite !FloatAxioms.ltb_spec.
    change (Prim2SF PrimFloat.zero) with (S754_zero false).
    change (Prim2SF PrimFloat.neg_zero) with (S754_zero true).
    unfold SFltb, SFcompare. destruct (Prim2SF a) as [s | s | | s m e];
      try destruct s; reflexivity.
  - destruct (PrimFloat.ltb h x) eqn:L.
    + destruct (PrimFloat.ltb a h) eqn:A; [ | reflexivity ].
      rewrite (ltb_trans _ _ _ A L). reflexivity.
    + destruct (PrimFloat.ltb a x) eqn:A; [ | rewrite orb_false_r; reflexivity ].
      assert (Le : PrimFloat.leb x h = true)
        by (rewrite (leb_negb_ltb x h Hx Hh), L; reflexivity).
      rewrite (ltb_leb_trans _ _ _ A Le). reflexivity.
Qed.

Lemma fold_max_above (a : float) (xs : list float) (h : float) :
  PrimFloat.is_nan h = false ->
  Forall (fun x => PrimFloat.is_nan x = false) xs ->
  PrimFloat.ltb a (fold_left max_step xs h)
  = PrimFloat.ltb a h || existsb (PrimFloat.ltb a) xs.
Proof.
  intros Hh Hxs. revert h Hh.
  induction Hxs as [ | x xs Hx Hxs IH]; intros h Hh; simpl.
  - rewrite orb_false_r. reflexivity.
  - rewrite (IH _ (max_step_not_nan h x Hh Hx)).
    rewrite (max_step_above a h x Hh Hx). symmetry. apply orb_assoc.
Qed.

(** Without NaN among them, something exceeds [a] exactly when the
    maximum does. *)
Lemma Math_max_above (a : float) (xs : list float) :
  Forall (fun x => PrimFloat.is_nan x = false) xs ->
  PrimFloat.ltb a (Math_max xs) = existsb (PrimFloat.ltb a) xs.
Proof.
  intros H. unfold Math_max.
  rewrite (fold_max_above a xs PrimFloat.neg_infinity (eq_refl false) H).
  replace (PrimFloat.ltb a PrimFloat.neg_infinity) with false; [ reflexivity | ].
  rewrite FloatAxioms.ltb_spec.
  change (Prim2SF PrimFloat.neg_infinity) with (S754_infinity true).
  unfold SFltb, SFcompare. destruct (Prim2SF a) as [s | s | | s m e];
    try destruct s; reflexivity.
Qed.

Lemma fold_max_nan (xs : list float) (h : float) :
  PrimFloat.is_nan h = true -> PrimFloat.is_nan (fold_left max_step xs h) = true.
Proof.
  revert h. induction xs as [ | x xs IH]; intros h Hh; simpl; [ exact Hh | ].
  apply IH. unfold max_step. rewrite Hh. exact Hh.
Qed.

(** One NaN among the arguments makes the maximum NaN. *)
Lemma Math_max_nan (xs : list float) :
  Exists (fun x => PrimFloat.is_nan x = true) xs ->
  PrimFloat.is_nan (Math_max xs) = true.
Proof.
  unfold Math_max. generalize PrimFloat.neg_infinity.
  induction xs as [ | x xs IH]; intros h H; [ inversion H | ].
  simpl. destruct (PrimFloat.is_nan x) eqn:Nx.
  - apply fold_max_nan. unfold max_step.
    destruct (PrimFloat.is_nan h) eqn:Nh; [ exact Nh | ].
    rewrite Nx. reflexivity.
  - apply IH. inversion H as [? ? Hx | ? ? Hxs]; subst;
      [ congruence | exact Hxs ].
Qed.

End FloatOrder.

(** ** Multiplication by 1 *)

Module FloatOne.

Lemma shifted_mantissa (m : positive) :
  (m * 4503599627370496)%positive
  = Pos.iter xO m 52.
Proof.
  rewrite Pos.mul_comm. reflexivity.
Qed.

Lemma digits2_shifted (m : positive) :
  Zpos (digits2_pos (Pos.iter xO m 52)) = (Zpos (digits2_pos m) + 52)%Z.
Proof.
  cbn [Pos.iter digits2_pos]. rewrite !Pos2Z.inj_succ. lia.
Qed.

Lemma shr_shifted (m : positive) :
  iter_pos shr_1 52 (Build_shr_record (Zpos (Pos.iter xO m 52)) false false)
  = Build_shr_record (Zpos m) false false.
Proof. reflexivity. Qed.

(** Rounding [m * 2^52] at exponent [e - 52] gives back the double
    [m * 2^e]. *)
Lemma round_shifted (s : bool) (m : positive) (e : Z) :
  bounded prec emax m e = true ->
  binary_round_aux prec emax s (Zpos (m * 4503599627370496)) (e + -52) loc_Exact
  = S754_finite s m e.
Proof.
  intros B. unfold bounded, canonical_mantissa in B.
  apply andb_true_iff in B. destruct B as [C L].
  apply Z.eqb_eq in C.
  unfold binary_round_aux, shr_fexp.
  rewrite shifted_mantissa. unfold Zdigits2. rewrite digits2_shifted.
  replace (Zpos (digits2_pos m) + 52 + (e + -52))%Z
    with (Zpos (digits2_pos m) + e)%Z by lia.
  rewrite C. replace (e - (e + -52))%Z with 52%Z by lia.
  unfold shr at 1. cbn [shr_record_of_loc]. rewrite shr_shifted.
  cbn [shr_m loc_of_shr_record round_nearest_even].
  replace (e + -52 + 52)%Z with e by lia.
  rewrite C, Z.sub_diag. cbn [shr shr_record_of_loc shr_m].
  rewrite L. reflexivity.
Qed.

(** Multiplying by 1 changes no number. *)
Lemma mul_1_r (x : float) : x * 1 = x.
Proof.
  apply Prim2SF_inj. rewrite FloatAxioms.mul_spec.
  change (Prim2SF 1) with (S754_finite false 4503599627370496 (-52)).
  pose proof (Prim2SF_valid x) as V.
  destruct (Prim2SF x) as [s | s | | s m e]; unfold SF64mul, SFmul.
  - rewrite xorb_false_r. reflexivity.
  - rewrite xorb_false_r. reflexivity.
  - reflexivity.
  - rewrite xorb_false_r. apply round_shifted. exact V.
Qed.

End FloatOne.

(** ** The guard, the warnings and numbers that are not numbers *)

(** What a run leaves in [results], by the outcome of the guard. *)
Lemma flowResult_by_guard (st : State) :
  flowResult st =
    if rejected st.(inputs) then Spec.invalidResult
    else
      let mfcB := if lt (Spec.unclamped st.(inputs) st.(calibration)) 0 then 0
                  else Spec.unclamped st.(inputs) st.(calibration) in
      let mfcC := map (mfcCValue st) st.(inputs).(concentrations) in
      let mfcA := st.(inputs).(totalFlow) - mfcB in
      {| mfcA := mfcA;
         mfcB := mfcB;
         mfcC := mfcC;
         isValid := true;
         warnings := Spec.warningsFor st.(inputs).(targetHumidity)
                       (Math_max (map flow mfcC)) mfcA |}.
Proof.
  unfold flowResult, calculateMFCValues, rejected.
  destruct (le _ 0 || lt _ 0 || gt _ 100); [ reflexivity | ].
  cbv zeta. unfold setResults. cbn [results].
  unfold Spec.warningsFor, Spec.unclamped, push.
  f_equal.
  destruct (gt (targetHumidity (inputs st)) 80),
           (lt (targetHumidity (inputs st)) 10);
    match goal with |- context [if ?c then _ else _] =>
      destruct c end; reflexivity.
Qed.

Lemma isValid_by_guard (st : State) :
  (flowResult st).(isValid) = negb (rejected st.(inputs)).
Proof.
  rewrite flowResult_by_guard. destruct (rejected (inputs st)); reflexivity.
Qed.

(** X1.  When totalFlow and targetHumidity are numbers (not NaN), the
    result is valid exactly when totalFlow > 0 and 0 <= targetHumidity <=
    100, and invalid exactly when totalFlow <= 0, targetHumidity < 0 or
    targetHumidity > 100. *)
Theorem valid_exactly_in_range (st : State) :
  PrimFloat.is_nan st.(inputs).(totalFlow) = false ->
  PrimFloat.is_nan st.(inputs).(targetHumidity) = false ->
  ((flowResult st).(isValid) = true <-> Spec.validInput st.(inputs))
  /\ ((flowResult st).(isValid) = false <-> Spec.invalidInput st.(inputs)).
Proof.
  intros Nt Nh. rewrite isValid_by_guard.
  unfold rejected, Spec.validInput, Spec.invalidInput, gt, le, lt.
  rewrite (FloatOrder.leb_negb_ltb _ 0 Nt eq_refl).
  rewrite (FloatOrder.leb_negb_ltb 0 _ eq_refl Nh).
  rewrite (FloatOrder.leb_negb_ltb _ 100 Nh eq_refl).
  destruct (PrimFloat.ltb 0 (totalFlow (inputs st))),
           (PrimFloat.ltb (targetHumidity (inputs st)) 0),
           (PrimFloat.ltb 100 (targetHumidity (inputs st)));
    cbn; intuition congruence.
Qed.

Lemma valid_exactly_in_range_witness :
  PrimFloat.is_nan negativeFlowState.(inputs).(totalFlow) = false
  /\ PrimFloat.is_nan negativeFlowState.(inputs).(targetHumidity) = false
  /\ (flowResult negativeFlowState).(isValid) = false
  /\ Spec.invalidInput negativeFlowState.(inputs).
Proof.
  destruct (valid_exactly_in_range negativeFlowState eq_refl eq_refl)
    as [_ [H _]].
  split; [ reflexivity | split; [ reflexivity | split; [ reflexivity | ] ] ].
  apply H. reflexivity.
Defined.

(** X2.  A targetHumidity that is NaN is not rejected: as soon as
    totalFlow <= 0 is false, the result is marked valid, mfcA and mfcB are
    NaN, there is no warning at all, and the CSV prints "NaN" in both
    columns. *)
Theorem nan_humidity_is_accepted (st : State) :
  PrimFloat.is_nan st.(inputs).(targetHumidity) = true ->
  le st.(inputs).(totalFlow) 0 = false ->
  (flowResult st).(isValid) = true
  /\ PrimFloat.is_nan (flowResult st).(mfcB) = true
  /\ PrimFloat.is_nan (flowResult st).(mfcA) = true
  /\ (flowResult st).(warnings) = []
  /\ toFixed (flowResult st).(mfcA) 2 = "NaN"
  /\ toFixed (flowResult st).(mfcB) 2 = "NaN".
Proof.
  intros Nh Ht.
  assert (G : rejected st.(inputs) = false).
  { unfold rejected, lt, gt. rewrite Ht.
    rewrite (FloatOrder.ltb_nan_l _ 0 Nh), (FloatOrder.ltb_nan_r 100 _ Nh).
    reflexivity. }
  assert (Nu : PrimFloat.is_nan (Spec.unclamped st.(inputs) st.(calibration))
               = true).
  { unfold Spec.unclamped.
    apply FloatOrder.add_nan_l, FloatOrder.mul_nan_r, Nh. }
  rewrite flowResult_by_guard, G. cbv zeta. cbn [isValid mfcA mfcB warnings].
  unfold lt at 1 2 3 4 5. rewrite (FloatOrder.ltb_nan_l _ 0 Nu).
  assert (Na : PrimFloat.is_nan
                 (st.(inputs).(totalFlow)
                  - Spec.unclamped st.(inputs) st.(calibration)) = true)
    by (apply FloatOrder.sub_nan_r, Nu).
  split; [ reflexivity | split; [ exact Nu | split; [ exact Na | ] ] ].
  split.
  - unfold Spec.warningsFor, gt, lt.
    rewrite (FloatOrder.ltb_nan_r 80 _ Nh), (FloatOrder.ltb_nan_l _ 10 Nh).
    rewrite (FloatOrder.ltb_nan_l _ _ Na). reflexivity.
  - unfold toFixed, Number_toString.
    rewrite (FloatOrder.is_nan_true _ Na), (FloatOrder.is_nan_true _ Nu).
    split; reflexivity.
Qed.

Lemma nan_humidity_is_accepted_witness :
  PrimFloat.is_nan nanHumidityState.(inputs).(targetHumidity) = true
  /\ le nanHumidityState.(inputs).(totalFlow) 0 = false
  /\ (flowResult nanHumidityState).(isValid) = true
  /\ (flowResult nanHumidityState).(warnings) = [].
Proof.
  destruct (nan_humidity_is_accepted nanHumidityState eq_refl eq_refl)
    as (V & _ & _ & W & _).
  split; [ reflexivity | split; [ reflexivity | split; [ exact V | exact W ] ] ].
Defined.

Lemma prefix_append (s t : string) : String.prefix s (s ++ t) = true.
Proof.
  induction s as [ | c s IH]; simpl.
  - destruct t; reflexivity.
  - destruct (ascii_dec c c) as [_ | N]; [ exact IH | contradiction ].
Qed.

Lemma hasCapacityWarning_valid (st : State) :
  rejected st.(inputs) = false ->
  hasCapacityWarning (flowResult st).(warnings)
  = gt (Math_max (map flow (flowResult st).(mfcC))) (flowResult st).(mfcA).
Proof.
  intros G. rewrite flowResult_by_guard, G. cbv zeta.
  cbn [warnings mfcC mfcA]. unfold hasCapacityWarning, Spec.warningsFor.
  rewrite !existsb_app.
  assert (C : forall x y,
             existsb (String.prefix "Max MFC C flow (")
                     [Spec.capacityWarning x y] = true).
  { intros x y. cbn [existsb]. unfold Spec.capacityWarning.
    rewrite prefix_append. reflexivity. }
  destruct (gt (targetHumidity (inputs st)) 80),
           (lt (targetHumidity (inputs st)) 10);
    match goal with |- context [if ?c then _ else _] =>
      destruct c end; rewrite ?C; reflexivity.
Qed.

(** X3.  On a valid input whose flows are all numbers, the capacity warning
    is among the warnings exactly when the flow of some mfcC entry exceeds
    mfcA; if the flow of some entry is NaN there is no capacity warning,
    whatever the other flows are; and with no concentration there is none
    either. *)
Theorem capacity_warning_iff_exceeded (st : State) :
  Spec.validInput st.(inputs) ->
  (Forall (fun entry => PrimFloat.is_nan entry.(flow) = false)
          (flowResult st).(mfcC) ->
   (hasCapacityWarning (flowResult st).(warnings) = true <->
    exists entry,
      In entry (flowResult st).(mfcC)
      /\ gt entry.(flow) (flowResult st).(mfcA) = true))
  /\ (Exists (fun entry => PrimFloat.is_nan entry.(flow) = true)
             (flowResult st).(mfcC) ->
      hasCapacityWarning (flowResult st).(warnings) = false)
  /\ (st.(inputs).(concentrations) = [] ->
      (flowResult st).(mfcC) = []
      /\ hasCapacityWarning (flowResult st).(warnings) = false).
Proof.
  intros H. pose proof (valid_guard st H) as G. fold (rejected st.(inputs)) in G.
  rewrite (hasCapacityWarning_valid st G). unfold gt.
  split; [ | split ].
  - intros N. rewrite FloatOrder.Math_max_above
      by (apply Forall_map; exact N).
    rewrite existsb_exists. split.
    + intros (x & Hx & L). apply in_map_iff in Hx.
      destruct Hx as (entry & <- & Hin). exists entry. split; assumption.
    + intros (entry & Hin & L). exists entry.(flow). split; [ | exact L ].
      apply in_map. exact Hin.
  - intros E. apply FloatOrder.ltb_nan_r, FloatOrder.Math_max_nan.
    apply Exists_map. exact E.
  - intros E. rewrite flowResult_by_guard, G. cbv zeta. cbn [mfcC mfcA].
    rewrite E. split; [ reflexivity | ].
    cbn [map]. unfold Math_max. cbn [fold_left].
    rewrite FloatAxioms.ltb_spec.
    change (Prim2SF PrimFloat.neg_infinity) with (S754_infinity true).
    unfold SFltb, SFcompare. destruct (Prim2SF _) as [s | s | | s m e];
      try destruct s; reflexivity.
Qed.

Lemma capacity_warning_iff_exceeded_witness :
  Spec.validInput lowFlowState.(inputs)
  /\ Forall (fun entry => PrimFloat.is_nan entry.(flow) = false)
            (flowResult lowFlowState).(mfcC)
  /\ hasCapacityWarning (flowResult lowFlowState).(warnings) = true
  /\ exists entry,
       In entry (flowResult lowFlowState).(mfcC)
       /\ gt entry.(flow) (flowResult lowFlowState).(mfcA) = true.
Proof.
  assert (H : Spec.validInput lowFlowState.(inputs))
    by (repeat split; reflexivity).
  assert (N : Forall (fun entry => PrimFloat.is_nan entry.(flow) = false)
                     (flowResult lowFlowState).(mfcC))
    by (repeat constructor).
  destruct (capacity_warning_iff_exceeded lowFlowState H) as (I & _).
  split; [ exact H | split; [ exact N | split; [ reflexivity | ] ] ].
  apply (I N). reflexivity.
Defined.

(** ** The characters of printed numbers *)

Lemma all_chars_append (p : ascii -> bool) (s t : string) :
  all_chars p (s ++ t) = all_chars p s && all_chars p t.
Proof.
  induction s as [ | c s IH]; simpl; [ reflexivity | ].
  rewrite IH. apply andb_assoc.
Qed.

Lemma all_chars_take (p : ascii -> bool) (n : nat) (s : string) :
  all_chars p s = true -> all_chars p (take n s) = true.
Proof.
  revert s. induction n as [ | n IH]; intros s H; [ reflexivity | ].
  destruct s as [ | c s]; [ reflexivity | ].
  simpl in *. apply andb_true_iff in H. destruct H as [Hc Hs].
  rewrite Hc, (IH s Hs). reflexivity.
Qed.

Lemma all_chars_drop (p : ascii -> bool) (n : nat) (s : string) :
  all_chars p s = true -> all_chars p (drop n s) = true.
Proof.
  revert s. induction n as [ | n IH]; intros s H; [ exact H | ].
  destruct s as [ | c s]; [ reflexivity | ].
  simpl in *. apply andb_true_iff in H. destruct H as [_ Hs].
  exact (IH s Hs).
Qed.

Lemma all_chars_weaken (p q : ascii -> bool) (s : string) :
  (forall c, p c = true -> q c = true) ->
  all_chars p s = true -> all_chars q s = true.
Proof.
  intros Hpq. induction s as [ | c s IH]; simpl; [ reflexivity | ].
  intros H. apply andb_true_iff in H. destruct H as [Hc Hs].
  rewrite (Hpq c Hc), (IH Hs). reflexivity.
Qed.

Lemma all_chars_zeros (n : nat) : all_chars is_digit (zeros n) = true.
Proof.
  induction n as [ | n IH]; simpl; [ reflexivity | exact IH ].
Qed.

Lemma all_chars_uint (u : Decimal.uint) :
  all_chars is_digit (NilEmpty.string_of_uint u) = true.
Proof.
  induction u; simpl; try reflexivity; assumption.
Qed.

Lemma all_chars_digits (n : Z) : all_chars is_digit (digits n) = true.
Proof.
  unfold digits, NilZero.string_of_uint.
  destruct (N.to_uint (Z.to_N n)) eqn:E; try reflexivity;
    rewrite <- E; apply all_chars_uint.
Qed.

Lemma is_digit_numeral (c : ascii) : is_digit c = true -> numeral_char c = true.
Proof.
  intros H. unfold numeral_char. rewrite H. reflexivity.
Qed.

Ltac digit_text :=
  repeat first [ apply all_chars_take | apply all_chars_drop ];
  first [ apply all_chars_digits | apply all_chars_zeros
        | rewrite all_chars_append, all_chars_zeros, all_chars_digits;
          reflexivity ].

Ltac numeral_with known :=
  repeat (rewrite all_chars_append; apply andb_true_iff; split);
  first [ reflexivity
        | apply known
        | apply (all_chars_weaken is_digit numeral_char _ is_digit_numeral);
          digit_text ].

Lemma all_chars_layout (s k n : Z) :
  all_chars numeral_char (layout s k n) = true.
Proof.
  unfold layout.
  destruct ((k <=? n)%Z && (n <=? 21)%Z); [ numeral_with all_chars_digits | ].
  destruct ((0 <? n)%Z && (n <=? 21)%Z); [ numeral_with all_chars_digits | ].
  destruct ((-6 <? n)%Z && (n <=? 0)%Z); [ numeral_with all_chars_digits | ].
  destruct (n - 1 <? 0)%Z, (k =? 1)%Z; numeral_with all_chars_digits.
Qed.

(** A printed number is made of numeral characters only. *)
Lemma all_chars_Number_toString (x : number) :
  all_chars numeral_char (Number_toString x) = true.
Proof.
  unfold Number_toString.
  destruct (Prim2SF x) as [s | [ | ] | | sgn m e]; try reflexivity.
  destruct (shortest 17 (Zpos m) e (decimal_exponent (Zpos m) e) 1)
    as [[s k] n].
  destruct sgn; numeral_with all_chars_layout.
Qed.

Lemma all_chars_toFixed_layout (n : Z) (f : nat) :
  all_chars numeral_char (toFixed_layout n f) = true.
Proof.
  unfold toFixed_layout. destruct f as [ | f];
    [ numeral_with all_chars_digits | ].
  destruct (String.length (digits n) <=? S f)%nat;
    numeral_with all_chars_digits.
Qed.

Lemma all_chars_toFixed (x : number) (f : nat) :
  all_chars numeral_char (toFixed x f) = true.
Proof.
  unfold toFixed.
  pose proof (all_chars_Number_toString x) as T.
  destruct (Prim2SF x) as [s | s | | sgn m e]; try exact T.
  - apply all_chars_toFixed_layout.
  - destruct (_ <=? _)%Z; [ exact T | ].
    destruct sgn; numeral_with all_chars_toFixed_layout.
Qed.

(** ** Counting commas and line feeds *)

Lemma count_char_append (c : ascii) (s t : string) :
  count_char c (s ++ t) = (count_char c s + count_char c t)%nat.
Proof.
  induction s as [ | d s IH]; simpl; [ reflexivity | ].
  rewrite IH. lia.
Qed.

Lemma count_char_absent (p : ascii -> bool) (c : ascii) (s : string) :
  p c = false -> all_chars p s = true -> count_char c s = 0%nat.
Proof.
  intros Hc. induction s as [ | d s IH]; simpl; [ reflexivity | ].
  intros H. apply andb_true_iff in H. destruct H as [Hd Hs].
  rewrite (IH Hs). destruct (Ascii.eqb_spec c d) as [-> | _];
    [ congruence | reflexivity ].
Qed.

Lemma no_comma_Number_toString (x : number) :
  count_char COMMA (Number_toString x) = 0%nat.
Proof.
  apply (count_char_absent numeral_char); [ reflexivity | ].
  apply all_chars_Number_toString.
Qed.

Lemma no_LF_Number_toString (x : number) :
  count_char LFchar (Number_toString x) = 0%nat.
Proof.
  apply (count_char_absent numeral_char); [ reflexivity | ].
  apply all_chars_Number_toString.
Qed.

Lemma no_comma_toFixed (x : number) (f : nat) :
  count_char COMMA (toFixed x f) = 0%nat.
Proof.
  apply (count_char_absent numeral_char); [ reflexivity | ].
  apply all_chars_toFixed.
Qed.

Lemma no_LF_toFixed (x : number) (f : nat) :
  count_char LFchar (toFixed x f) = 0%nat.
Proof.
  apply (count_char_absent numeral_char); [ reflexivity | ].
  apply all_chars_toFixed.
Qed.

Ltac count_row :=
  repeat rewrite count_char_append;
  repeat rewrite no_comma_Number_toString;
  repeat rewrite no_LF_Number_toString;
  repeat rewrite no_comma_toFixed;
  repeat rewrite no_LF_toFixed;
  reflexivity.

(** A formatted row: three commas, and one line feed, the last character. *)
Lemma formatRow_shape (r : Timeline.Row) :
  count_char COMMA (Timeline.formatRow r) = 3%nat
  /\ count_char LFchar (Timeline.formatRow r) = 1%nat
  /\ exists fields,
       Timeline.formatRow r = fields ++ LF
       /\ count_char LFchar fields = 0%nat.
Proof.
  unfold Timeline.formatRow.
  destruct (Timeline.kind r); (split; [ count_row | split; [ count_row | ] ]).
  - exists (Number_toString (Timeline.time r) ++ "," ++ toFixed (Timeline.chA r) 2
            ++ "," ++ toFixed (Timeline.chB r) 2 ++ ",0").
    split; [ rewrite !append_assoc; reflexivity | count_row ].
  - exists (Number_toString (Timeline.time r) ++ "," ++ toFixed (Timeline.chA r) 2
            ++ "," ++ toFixed (Timeline.chB r) 2 ++ ","
            ++ toFixed (Timeline.chC r) 9).
    split; [ rewrite !append_assoc; reflexivity | count_row ].
  - exists (Number_toString (Timeline.time r) ++ ",0,0,0").
    split; [ rewrite !append_assoc; reflexivity | count_row ].
Qed.

Lemma joinRows_count (c : ascii) (rs : list Timeline.Row) (k : nat) :
  (forall r, In r rs -> count_char c (Timeline.formatRow r) = k) ->
  count_char c (Timeline.joinRows rs) = (k * List.length rs)%nat.
Proof.
  induction rs as [ | r rs IH]; intros H; simpl; [ lia | ].
  rewrite count_char_append, (H r (or_introl eq_refl)).
  fold (Timeline.joinRows rs). rewrite IH; [ lia | ].
  intros r' Hr'. apply H. right. exact Hr'.
Qed.

Lemma csvHeader_LF (now : string) (st : State) :
  count_char LFchar (csvHeader now st) = (count_char LFchar now + 10)%nat.
Proof.
  unfold csvHeader. cbv zeta.
  repeat rewrite count_char_append.
  repeat rewrite no_LF_Number_toString.
  cbn. lia.
Qed.

(** X4.  The CSV of a valid result is well formed: every data row has
    exactly three commas (four fields, whatever the numbers are, NaN and
    Infinity included) and one line feed, which ends it; the whole text has
    2 x N + 13 line feeds for N entries, ten of them in the header, plus
    those of the timestamp if it had any. *)
Theorem csv_rows_have_four_fields (now : string) (st : State) :
  st.(results).(isValid) = true ->
  generateCSV now st = csvHeader now st ++ Timeline.joinRows (Timeline.rows st)
  /\ (forall r,
        In r (Timeline.rows st) ->
        count_char COMMA (Timeline.formatRow r) = 3%nat
        /\ count_char LFchar (Timeline.formatRow r) = 1%nat
        /\ exists fields,
             Timeline.formatRow r = fields ++ LF
             /\ count_char LFchar fields = 0%nat)
  /\ count_char LFchar (generateCSV now st)
     = (count_char LFchar now + 2 * List.length st.(results).(mfcC) + 13)%nat
  /\ count_char COMMA (Timeline.joinRows (Timeline.rows st))
     = (3 * (2 * List.length st.(results).(mfcC) + 3))%nat.
Proof.
  intros V. pose proof (generateCSV_joinRows now st V) as E.
  assert (L : List.length (Timeline.rows st)
              = (2 * List.length st.(results).(mfcC) + 3)%nat).
  { unfold Timeline.rows. cbn [List.length]. rewrite stepRows_length. lia. }
  split; [ exact E | split; [ intros r _; apply formatRow_shape | split ] ].
  - rewrite E, count_char_append, csvHeader_LF.
    rewrite (joinRows_count LFchar _ 1); [ rewrite L; lia | ].
    intros r _. apply formatRow_shape.
  - rewrite (joinRows_count COMMA _ 3); [ rewrite L; reflexivity | ].
    intros r _. apply formatRow_shape.
Qed.

Lemma csv_rows_have_four_fields_witness :
  firstState.(results).(isValid) = true
  /\ count_char LFchar (generateCSV "2025-01-01T00:00:00.000Z" firstState)
     = 19%nat.
Proof.
  destruct (csv_rows_have_four_fields "2025-01-01T00:00:00.000Z" firstState
              eq_refl) as (_ & _ & C & _).
  split; [ reflexivity | exact C ].
Defined.

(** ** downloadCSV *)

Lemma take_length (n : nat) (s : string) :
  String.length (take n s) = Nat.min n (String.length s).
Proof.
  revert s. induction n as [ | n IH]; intros s; [ reflexivity | ].
  destruct s as [ | c s]; [ reflexivity | ].
  simpl. rewrite IH. reflexivity.
Qed.

Lemma replaceColonDot_length (s : string) :
  String.length (replaceColonDot s) = String.length s.
Proof.
  induction s as [ | c s IH]; simpl; [ reflexivity | ].
  rewrite IH. reflexivity.
Qed.

Lemma take_replaceColonDot (n : nat) (s : string) :
  take n (replaceColonDot s) = replaceColonDot (take n s).
Proof.
  revert s. induction n as [ | n IH]; intros s; [ reflexivity | ].
  destruct s as [ | c s]; [ reflexivity | ].
  simpl. rewrite IH. reflexivity.
Qed.

Lemma replaceColonDot_clean (s : string) :
  count_char ":" (replaceColonDot s) = 0%nat
  /\ count_char "." (replaceColonDot s) = 0%nat.
Proof.
  induction s as [ | c s [IH1 IH2]]; [ split; reflexivity | ].
  cbn [replaceColonDot count_char]. rewrite IH1, IH2.
  destruct (Ascii.eqb c ":") eqn:E1; [ split; reflexivity | ].
  destruct (Ascii.eqb c ".") eqn:E2; [ split; reflexivity | ].
  cbn [orb]. rewrite Ascii.eqb_sym, E1.
  rewrite (Ascii.eqb_sym "." c), E2. split; reflexivity.
Qed.

Lemma prefix_header (now : string) (st : State) (rest : string) :
  String.prefix "# Alicat SSCM MFC Configuration" (csvHeader now st ++ rest)
  = true.
Proof.
  unfold csvHeader. cbv zeta. rewrite !append_assoc. apply prefix_append.
Qed.

(** X5.  [downloadCSV] stores in [csvData] the very text it offers for
    download and touches no other cell.  The file is named MFC_, the
    humidity as a plain number, RH_, a stamp and .csv, where the stamp is
    the first 16 characters of the instant with every ':' and '.' turned
    into '-': it has no ':' and no '.', and two clicks whose instants agree
    up to the minute get the same file name.  On a valid result the text
    starts with the "# Alicat SSCM MFC Configuration" line; on an invalid
    one it is empty. *)
Theorem downloadCSV_name_and_content (nowCsv nowName : string) (st : State) :
  (fst (downloadCSV nowCsv nowName st)).(csvData)
    = (snd (downloadCSV nowCsv nowName st)).(blobContent)
  /\ (snd (downloadCSV nowCsv nowName st)).(blobContent) = generateCSV nowCsv st
  /\ ((fst (downloadCSV nowCsv nowName st)).(inputs) = st.(inputs)
      /\ (fst (downloadCSV nowCsv nowName st)).(timings) = st.(timings)
      /\ (fst (downloadCSV nowCsv nowName st)).(calibration) = st.(calibration)
      /\ (fst (downloadCSV nowCsv nowName st)).(results) = st.(results))
  /\ (exists stamp,
        (snd (downloadCSV nowCsv nowName st)).(download)
        = "MFC_" ++ Number_toString st.(inputs).(targetHumidity) ++ "RH_"
          ++ stamp ++ ".csv"
        /\ stamp = replaceColonDot (take 16 nowName)
        /\ String.length stamp = Nat.min 16 (String.length nowName)
        /\ count_char ":" stamp = 0%nat
        /\ count_char "." stamp = 0%nat)
  /\ (forall nowCsv' nowName',
        take 16 nowName' = take 16 nowName ->
        (snd (downloadCSV nowCsv' nowName' st)).(download)
        = (snd (downloadCSV nowCsv nowName st)).(download))
  /\ (st.(results).(isValid) = true ->
      String.prefix "# Alicat SSCM MFC Configuration"
                    (snd (downloadCSV nowCsv nowName st)).(blobContent) = true)
  /\ (st.(results).(isValid) = false ->
      (snd (downloadCSV nowCsv nowName st)).(blobContent) = "").
Proof.
  unfold downloadCSV. cbv zeta. cbn [fst snd csvData blobContent download
                                     setCsvData inputs timings calibration
                                     results].
  split; [ reflexivity | split; [ reflexivity | split; [ repeat split | ] ] ].
  split.
  { exists (replaceColonDot (take 16 nowName)).
    rewrite take_replaceColonDot.
    split; [ reflexivity | split; [ reflexivity | split ] ].
    - rewrite replaceColonDot_length. apply take_length.
    - apply replaceColonDot_clean. }
  split.
  { intros nowCsv' nowName' E. rewrite !take_replaceColonDot, E. reflexivity. }
  split.
  - intros V. rewrite (generateCSV_joinRows nowCsv st V). apply prefix_header.
  - intros V. apply generateCSV_invalid, V.
Qed.

(** Two clicks in the same minute, at the initial inputs. *)
Example download_name_initial :
  (snd (downloadCSV "2025-01-01T12:34:56.789Z" "2025-01-01T12:34:56.790Z"
          firstState)).(download)
  = "MFC_35RH_2025-01-01T12-34.csv"
  /\ (snd (downloadCSV "2025-01-01T12:34:59.999Z" "2025-01-01T12:34:59.999Z"
            firstState)).(download)
     = "MFC_35RH_2025-01-01T12-34.csv".
Proof. split; reflexivity. Qed.

(** ** The change handlers *)


Lemma orElse_truthy (a b : number) :
  truthy b = true -> truthy (Text.orElse a b) = true.
Proof.
  intros Hb. unfold Text.orElse.
  destruct (PrimFloat.eqb a 0 || PrimFloat.is_nan a) eqn:E; [ exact Hb | ].
  unfold truthy. rewrite E. reflexivity.
Qed.

Lemma orElse_falsy (a b : number) :
  truthy a = false -> Text.orElse a b = b.
Proof.
  unfold truthy, Text.orElse. intros H. apply negb_false_iff in H.
  rewrite H. reflexivity.
Qed.

Lemma orElse_kept (a b : number) :
  truthy a = true -> Text.orElse a b = a.
Proof.
  unfold truthy, Text.orElse. intros H. apply negb_true_iff in H.
  rewrite H. reflexivity.
Qed.

(** X6.  The three number fields and the three timing fields never store
    0, -0 or NaN: when the text parses to one of them (as "0", "-0", "" or
    "abc" do) the field falls back to its default, 500, 50 and 2000, and 30,
    30 and 5; any other parsed value, negative ones included, is stored as
    it is.  In particular a humidity of 0 cannot be entered: it becomes
    50. *)
Theorem fields_fall_back_on_zero (value : Text.text) (st : State) :
  (truthy (onTotalFlowChange value st).(inputs).(totalFlow) = true
   /\ truthy (onTargetHumidityChange value st).(inputs).(targetHumidity) = true
   /\ truthy (onSourceConcChange value st).(inputs).(ch2oSourceConc) = true
   /\ truthy (onBaselineChange value st).(timings).(baselineDuration) = true
   /\ truthy (onExposureChange value st).(timings).(exposureDuration) = true
   /\ truthy (onStabilizationChange value st).(timings).(stabilizationTime)
      = true)
  /\ (truthy (Text.parseFloat value) = false ->
      (onTotalFlowChange value st).(inputs).(totalFlow) = 500
      /\ (onTargetHumidityChange value st).(inputs).(targetHumidity) = 50
      /\ (onSourceConcChange value st).(inputs).(ch2oSourceConc) = 2000)
  /\ (truthy (Text.parseFloat value) = true ->
      (onTotalFlowChange value st).(inputs).(totalFlow) = Text.parseFloat value
      /\ (onTargetHumidityChange value st).(inputs).(targetHumidity)
         = Text.parseFloat value
      /\ (onSourceConcChange value st).(inputs).(ch2oSourceConc)
         = Text.parseFloat value)
  /\ (truthy (Text.parseInt value) = false ->
      (onBaselineChange value st).(timings).(baselineDuration) = 30
      /\ (onExposureChange value st).(timings).(exposureDuration) = 30
      /\ (onStabilizationChange value st).(timings).(stabilizationTime) = 5)
  /\ (truthy (Text.parseInt value) = true ->
      (onBaselineChange value st).(timings).(baselineDuration)
      = Text.parseInt value
      /\ (onExposureChange value st).(timings).(exposureDuration)
         = Text.parseInt value
      /\ (onStabilizationChange value st).(timings).(stabilizationTime)
         = Text.parseInt value)
  /\ (In value (map Text.of_string ["0"; "-0"; "0.0"; ""; " "; "abc"; "."]) ->
      (onTargetHumidityChange value st).(inputs).(targetHumidity) = 50).
Proof.
  unfold onTotalFlowChange, onTargetHumidityChange, onSourceConcChange,
         onBaselineChange, onExposureChange, onStabilizationChange.
  cbn [setInputs setTimings inputs timings totalFlow targetHumidity
       ch2oSourceConc baselineDuration exposureDuration stabilizationTime].
  split; [ repeat split; apply orElse_truthy; reflexivity | ].
  split; [ intros F; rewrite !(orElse_falsy _ _ F); repeat split | ].
  split; [ intros T; rewrite !(orElse_kept _ _ T); repeat split | ].
  split; [ intros F; rewrite !(orElse_falsy _ _ F); repeat split | ].
  split; [ intros T; rewrite !(orElse_kept _ _ T); repeat split | ].
  intros H. cbn [map In] in H.
  repeat (destruct H as [<- | H]; [ reflexivity | ]). destruct H.
Qed.

(** Some texts and what the total-flow field keeps of them. *)
Example total_flow_typed :
  map (fun s => Number_toString
                  (onTotalFlowChange (Text.of_string s) initialState)
                  .(inputs).(totalFlow))
      ["250"; " 12.5 "; "-3"; "1e3"; "7 SLPM"; "0"; ""; "SLPM"; "Infinity"]
  = ["250"; "12.5"; "-3"; "1000"; "7"; "500"; "500"; "500"; "Infinity"].
Proof. vm_compute. reflexivity. Qed.

(** ** The concentration steps *)





Lemma parseConcentrations_numbers (value : Text.text) :
  Forall (fun c => PrimFloat.is_nan c = false) (parseConcentrations value).
Proof.
  unfold parseConcentrations. apply Forall_forall. intros c Hc.
  apply filter_In in Hc. destruct Hc as [_ Hc].
  apply negb_true_iff in Hc. exact Hc.
Qed.


Lemma concentrations_typed_examples :
  map (fun s => map Number_toString (parseConcentrations (Text.of_string s)))
      ["50, 100, 200"; "50,abc,,100"; " 1e2 ;3, 4ppb , .5,-7"; ""; " , ,"]
  = [["50"; "100"; "200"]; ["50"; "100"]; ["100"; "4"; "0.5"; "-7"]; []; []].
Proof. vm_compute. reflexivity. Qed.

(** ** The component under a sequence of events *)

Lemma flowResult_ext (st1 st2 : State) :
  st1.(inputs) = st2.(inputs) ->
  st1.(calibration) = st2.(calibration) ->
  flowResult st1 = flowResult st2.
Proof.
  intros Hi Hc. rewrite !flowResult_by_guard.
  unfold mfcCValue. rewrite Hi, Hc. reflexivity.
Qed.

Lemma flowResult_calculate (st : State) :
  flowResult (calculateMFCValues st) = flowResult st.
Proof.
  destruct (calculateMFCValues_frame st) as (Hi & _ & Hc & _).
  apply flowResult_ext; assumption.
Qed.

(** After a handler that replaces [inputs], the effect leaves a settled
    state when the new inputs are in order. *)
Lemma settled_after_inputs (st : State) (i : Inputs) :
  Settled st ->
  truthy i.(totalFlow) = true ->
  truthy i.(targetHumidity) = true ->
  truthy i.(ch2oSourceConc) = true ->
  Forall (fun c => PrimFloat.is_nan c = false) i.(concentrations) ->
  Settled (calculateMFCValues (setInputs st i)).
Proof.
  intros S Ht Hh Hs Hc.
  destruct (calculateMFCValues_frame (setInputs st i)) as (Ei & Et & Ek & Ed).
  constructor.
  - symmetry. apply flowResult_calculate.
  - rewrite Ek. apply S.
  - rewrite Ei. exact Ht.
  - rewrite Ei. exact Hh.
  - rewrite Ei. exact Hs.
  - rewrite Ei. exact Hc.
  - rewrite Et. apply S.
  - rewrite Et. apply S.
  - rewrite Et. apply S.
  - rewrite Ed. apply S.
Qed.

Lemma settled_after_timings (st : State) (t : Timings) :
  Settled st ->
  truthy t.(baselineDuration) = true ->
  truthy t.(exposureDuration) = true ->
  truthy t.(stabilizationTime) = true ->
  Settled (setTimings st t).
Proof.
  intros S Hb He Hs.
  constructor; cbn [setTimings inputs timings calibration csvData results];
    [ | apply S | apply S | apply S | apply S | apply S
      | exact Hb | exact He | exact Hs | apply S ].
  rewrite (settled_results st S). apply flowResult_ext; reflexivity.
Qed.

Lemma settled_mount : Settled (calculateMFCValues initialState).
Proof.
  constructor; try reflexivity.
  - repeat constructor.
  - left. reflexivity.
Qed.

Lemma settled_dispatch (st : State) (ev : Event) :
  Settled st -> Settled (dispatch st ev).
Proof.
  intros S. destruct ev as [v | v | v | v | b | v | v | v | n1 n2];
    cbn [dispatch].
  - apply settled_after_inputs; cbn [totalFlow targetHumidity ch2oSourceConc
      concentrations]; try apply S. apply orElse_truthy. reflexivity.
  - apply settled_after_inputs; cbn [totalFlow targetHumidity ch2oSourceConc
      concentrations]; try apply S. apply orElse_truthy. reflexivity.
  - apply settled_after_inputs; cbn [totalFlow targetHumidity ch2oSourceConc
      concentrations]; try apply S. apply orElse_truthy. reflexivity.
  - apply settled_after_inputs; cbn [totalFlow targetHumidity ch2oSourceConc
      concentrations]; try apply S. apply parseConcentrations_numbers.
  - apply settled_after_inputs; cbn [totalFlow targetHumidity ch2oSourceConc
      concentrations]; apply S.
  - apply settled_after_timings; cbn [baselineDuration exposureDuration
      stabilizationTime]; try apply S. apply orElse_truthy. reflexivity.
  - apply settled_after_timings; cbn [baselineDuration exposureDuration
      stabilizationTime]; try apply S. apply orElse_truthy. reflexivity.
  - apply settled_after_timings; cbn [baselineDuration exposureDuration
      stabilizationTime]; try apply S. apply orElse_truthy. reflexivity.
  - unfold downloadCSV. cbv zeta. cbn [fst].
    constructor; cbn [setCsvData inputs timings calibration csvData results];
      [ | apply S | apply S | apply S | apply S | apply S
        | apply S | apply S | apply S | ].
    + rewrite (settled_results st S). apply flowResult_ext; reflexivity.
    + destruct (isValid (results st)) eqn:V.
      * right. rewrite (generateCSV_joinRows n1 st V). apply prefix_header.
      * left. apply generateCSV_invalid, V.
Qed.

Lemma run_settled (events : list Event) : Settled (run events).
Proof.
  unfold run. generalize settled_mount.
  generalize (calculateMFCValues initialState).
  induction events as [ | ev events IH]; intros st S; [ exact S | ].
  cbn [fold_left]. apply IH, settled_dispatch, S.
Qed.

(** X8.  After the mount and any sequence of field changes, toggles and
    download clicks, the result on display is the one [calculateMFCValues]
    gives for the inputs on display (it is never stale), the calibration is
    the initial one, none of totalFlow, targetHumidity, ch2oSourceConc and
    the three durations is 0 or NaN, no concentration is NaN, and the CSV
    preview is empty or a text that starts with the first header line. *)
Theorem results_follow_inputs (events : list Event) :
  (run events).(results) = flowResult (run events)
  /\ (run events).(calibration) = initialCalibration
  /\ (truthy (run events).(inputs).(totalFlow) = true
      /\ truthy (run events).(inputs).(targetHumidity) = true
      /\ truthy (run events).(inputs).(ch2oSourceConc) = true)
  /\ Forall (fun c => PrimFloat.is_nan c = false)
            (run events).(inputs).(concentrations)
  /\ (truthy (run events).(timings).(baselineDuration) = true
      /\ truthy (run events).(timings).(exposureDuration) = true
      /\ truthy (run events).(timings).(stabilizationTime) = true)
  /\ ((run events).(csvData) = ""
      \/ String.prefix "# Alicat SSCM MFC Configuration"
                       (run events).(csvData) = true).
Proof.
  pose proof (run_settled events) as S.
  split; [ apply S | split; [ apply S | ] ].
  split; [ repeat split; apply S | ].
  split; [ apply S | ].
  split; [ repeat split; apply S | apply S ].
Qed.


(** A session: a humidity of 0 is typed (and becomes 50), then a negative
    total flow, then the flow is put right and the file downloaded. *)
Example session :
  let st1 := run [TargetHumidityTyped (Text.of_string "0")] in
  let st2 := dispatch st1 (TotalFlowTyped (Text.of_string "-20")) in
  let st3 := dispatch st2 (DownloadClicked "2025-01-01T00:00:00.000Z"
                                           "2025-01-01T00:00:00.000Z") in
  let st4 := dispatch st3 (TotalFlowTyped (Text.of_string "400")) in
  Number_toString st1.(inputs).(targetHumidity) = "50"
  /\ toFixed st1.(results).(mfcB) 2 = "271.47"
  /\ st2.(results) = Spec.invalidResult
  /\ st3 = st2
  /\ st4.(results).(isValid) = true
  /\ toFixed st4.(results).(mfcA) 2 = "128.53".
Proof. vm_compute. repeat split. Qed.

(** ** The shape of toFixed *)

Lemma string_length_append (s t : string) :
  String.length (s ++ t) = (String.length s + String.length t)%nat.
Proof.
  induction s as [ | c s IH]; simpl; [ reflexivity | ].
  rewrite IH. reflexivity.
Qed.

Lemma zeros_length (n : nat) : String.length (zeros n) = n.
Proof.
  induction n as [ | n IH]; simpl; [ reflexivity | ].
  rewrite IH. reflexivity.
Qed.

Lemma drop_length (n : nat) (s : string) :
  String.length (drop n s) = (String.length s - n)%nat.
Proof.
  revert s. induction n as [ | n IH]; intros s; simpl; [ lia | ].
  destruct s as [ | c s]; [ reflexivity | ].
  simpl. apply IH.
Qed.

Lemma uint_nonempty (u : Decimal.uint) :
  u <> Decimal.Nil -> (1 <= String.length (NilEmpty.string_of_uint u))%nat.
Proof.
  destruct u; simpl; try congruence; intros _; lia.
Qed.

Lemma digits_nonempty (n : Z) : (1 <= String.length (digits n))%nat.
Proof.
  unfold digits, NilZero.string_of_uint.
  destruct (N.to_uint (Z.to_N n)) eqn:E; try (simpl; lia).
Qed.

(** With [f + 1] fraction digits asked for, the layout is an integer part,
    a point and exactly [f + 1] digits. *)
Lemma toFixed_layout_shape (n : Z) (f : nat) :
  exists ip fp,
    toFixed_layout n (S f) = ip ++ "." ++ fp
    /\ String.length fp = S f
    /\ (1 <= String.length ip)%nat
    /\ all_chars is_digit ip = true
    /\ all_chars is_digit fp = true.
Proof.
  unfold toFixed_layout.
  pose proof (digits_nonempty n) as K.
  pose proof (all_chars_digits n) as D.
  destruct (Nat.leb_spec (String.length (digits n)) (S f)) as [L | L].
  - set (m' := zeros (S f + 1 - String.length (digits n)) ++ digits n).
    assert (Lm : String.length m' = (S f + 1)%nat).
    { unfold m'. rewrite string_length_append, zeros_length. lia. }
    assert (Dm : all_chars is_digit m' = true).
    { unfold m'. rewrite all_chars_append, all_chars_zeros, D. reflexivity. }
    exists (take (S f + 1 - S f) m'), (drop (S f + 1 - S f) m').
    split; [ reflexivity | ].
    split; [ rewrite drop_length, Lm; lia | ].
    split; [ rewrite take_length, Lm; lia | ].
    split; [ apply all_chars_take, Dm | apply all_chars_drop, Dm ].
  - exists (take (String.length (digits n) - S f) (digits n)),
           (drop (String.length (digits n) - S f) (digits n)).
    split; [ reflexivity | ].
    split; [ rewrite drop_length; lia | ].
    split; [ rewrite take_length; lia | ].
    split; [ apply all_chars_take, D | apply all_chars_drop, D ].
Qed.

Lemma digits2_pos_bound (m : positive) :
  (Zpos m < 2 ^ Zpos (digits2_pos m))%Z.
Proof.
  induction m as [m IH | m IH | ]; cbn [digits2_pos];
    rewrite ?Pos2Z.inj_succ, ?Z.pow_succ_r by lia; lia.
Qed.

(** The mantissa of a double has at most 53 bits. *)
Lemma mantissa_bound (x : float) (s : bool) (m : positive) (e : Z) :
  Prim2SF x = S754_finite s m e -> (Zpos m < 2 ^ 53)%Z.
Proof.
  intros E. pose proof (Prim2SF_valid x) as V. rewrite E in V.
  unfold SpecFloat.valid_binary, bounded, canonical_mantissa in V.
  apply andb_true_iff in V. destruct V as [C _].
  apply Z.eqb_eq in C. unfold fexp in C.
  assert (D : (Zpos (digits2_pos m) <= 53)%Z)
    by (change prec with 53%Z in C; lia).
  eapply Z.lt_le_trans; [ apply digits2_pos_bound | ].
  apply Z.pow_le_mono_r; lia.
Qed.

Lemma SFltb_finite_inv (m M : positive) (e E : Z) :
  SFltb (S754_finite false m e) (S754_finite false M E) = true ->
  (e < E)%Z \/ (e = E /\ (Zpos m < Zpos M)%Z).
Proof.
  unfold SFltb, SFcompare.
  destruct (Z.compare_spec e E) as [-> | L | G]; [ | left; exact L | discriminate ].
  change (Pos.compare_cont Eq m M) with (Pos.compare m M).
  destruct (Pos.compare m M) eqn:C; try discriminate.
  intros _. right. split; [ reflexivity | ].
  apply Pos.compare_lt_iff in C. exact C.
Qed.

(** Below 10^21 in magnitude, [toFixed] takes its step 11: the number is
    0 or a finite number that fails the test of step 10. *)
Lemma below_1e21 (x : float) :
  PrimFloat.ltb (PrimFloat.abs x) 1e21 = true ->
  (exists s, Prim2SF x = S754_zero s)
  \/ exists s m e,
       Prim2SF x = S754_finite s m e
       /\ (pow10 21 * pow2 (Z.max (- e) 0) <=? Zpos m * pow2 (Z.max e 0))%Z
          = false.
Proof.
  rewrite FloatAxioms.ltb_spec, FloatAxioms.abs_spec.
  change (Prim2SF 1e21) with (S754_finite false 7629394531250000 17).
  destruct (Prim2SF x) as [s | s | | s m e] eqn:E;
    [ left; eauto | discriminate | discriminate | ].
  intros H. right. exists s, m, e. split; [ reflexivity | ].
  pose proof (mantissa_bound x s m e E) as B.
  apply SFltb_finite_inv in H.
  apply Z.leb_gt. unfold pow10, pow2.
  change (2 ^ 53)%Z with 9007199254740992%Z in B.
  change (10 ^ 21)%Z with 1000000000000000000000%Z.
  destruct (Z.le_gt_cases 0 e) as [P | N].
  - rewrite (Z.max_r (- e) 0), (Z.max_l e 0) by lia.
    change (2 ^ 0)%Z with 1%Z.
    destruct H as [L | [-> L]].
    + assert (P2 : (2 ^ e <= 2 ^ 16)%Z) by (apply Z.pow_le_mono_r; lia).
      assert (P0 : (0 < 2 ^ e)%Z) by (apply Z.pow_pos_nonneg; lia).
      change (2 ^ 16)%Z with 65536%Z in P2.
      assert (Zpos m * 2 ^ e <= 9007199254740991 * 65536)%Z
        by (apply Z.mul_le_mono_nonneg; lia).
      lia.
    + change (2 ^ 17)%Z with 131072%Z. lia.
  - rewrite (Z.max_l (- e) 0), (Z.max_r e 0) by lia.
    change (2 ^ 0)%Z with 1%Z.
    assert (P0 : (1 <= 2 ^ (- e))%Z)
      by (change 1%Z with (2 ^ 0)%Z; apply Z.pow_le_mono_r; lia).
    assert (1000000000000000000000 * 1 <= 1000000000000000000000 * 2 ^ (- e))%Z
      by (apply Z.mul_le_mono_nonneg_l; lia).
    lia.
Qed.

(** X10.  [toFixed] with f + 1 fraction digits, on a number below 10^21 in
    magnitude, prints a minus sign when the number is negative, at least one
    digit, a point and exactly f + 1 digits: the CSV columns of mfcA and
    mfcB have two decimals and that of an exposure flow nine.  On NaN and
    on the infinities it prints NaN, Infinity and -Infinity, with no
    decimals. *)
Theorem toFixed_decimals (x : number) (f : nat) :
  (PrimFloat.ltb (PrimFloat.abs x) 1e21 = true ->
   exists ip fp,
     toFixed x (S f) = (if lt x 0 then "-" else "") ++ ip ++ "." ++ fp
     /\ String.length fp = S f
     /\ (1 <= String.length ip)%nat
     /\ all_chars is_digit ip = true
     /\ all_chars is_digit fp = true)
  /\ (PrimFloat.is_nan x = true -> toFixed x f = "NaN")
  /\ (x = PrimFloat.infinity -> toFixed x f = "Infinity")
  /\ (x = PrimFloat.neg_infinity -> toFixed x f = "-Infinity").
Proof.
  split; [ | split; [ | split ] ].
  - intros B. unfold toFixed, lt. rewrite FloatAxioms.ltb_spec.
    change (Prim2SF 0) with (S754_zero false).
    destruct (below_1e21 x B) as [[s E] | (s & m & e & E & T)]; rewrite E.
    + destruct (toFixed_layout_shape 0 f) as (ip & fp & H).
      exists ip, fp. exact H.
    + rewrite T.
      destruct (toFixed_layout_shape (toFixed_n (Zpos m) e (S f)) f)
        as (ip & fp & -> & H).
      exists ip, fp. split; [ destruct s; reflexivity | exact H ].
  - intros N. unfold toFixed, Number_toString.
    rewrite (FloatOrder.is_nan_true x N). reflexivity.
  - intros ->. reflexivity.
  - intros ->. reflexivity.
Qed.

Example toFixed_decimals_samples :
  map (fun x => toFixed x 2) [319.7105; -129.98950000000002; 0.004; 1e20]
  = ["319.71"; "-129.99"; "0.00"; "100000000000000000000.00"].
Proof. vm_compute. reflexivity. Qed.

(** ** Fields that change nothing *)

(** X11.  The "Stabilization (min)" field is read by nothing: whatever is
    typed in it, the result, the CSV text, the file offered for download
    and the total experiment time stay what they were. *)
Theorem stabilization_is_ignored (value : Text.text) (st : State)
    (nowCsv nowName : string) :
  (onStabilizationChange value st).(results) = st.(results)
  /\ (onStabilizationChange value st).(inputs) = st.(inputs)
  /\ flowResult (onStabilizationChange value st) = flowResult st
  /\ generateCSV nowCsv (onStabilizationChange value st) = generateCSV nowCsv st
  /\ snd (downloadCSV nowCsv nowName (onStabilizationChange value st))
     = snd (downloadCSV nowCsv nowName st)
  /\ getTotalTime (onStabilizationChange value st) = getTotalTime st
  /\ (onStabilizationChange (Text.of_string "45") st).(timings).(stabilizationTime)
     = 45.
Proof.
  assert (G : generateCSV nowCsv (onStabilizationChange value st)
              = generateCSV nowCsv st) by reflexivity.
  split; [ reflexivity | split; [ reflexivity | split ] ].
  - apply flowResult_ext; reflexivity.
  - split; [ exact G | split; [ | split; reflexivity ] ].
    unfold downloadCSV. cbv zeta. cbn [snd]. rewrite G. reflexivity.
Qed.

Lemma dilution_factor_one (st : State) (c : number) :
  st.(calibration).(ch2oCalibrationFactor) = 1 ->
  mfcCValue st c
  = {| concentration := c;
       flow := Spec.flow_standard_of st.(inputs) c;
       flow_standard := Some (Spec.flow_standard_of st.(inputs) c);
       flow_desmos := Some (Spec.flow_standard_of st.(inputs) c) |}.
Proof.
  intros K. unfold mfcCValue, Spec.flow_standard_of.
  rewrite K, FloatOne.mul_1_r.
  destruct (useDesmosMath (inputs st)); reflexivity.
Qed.

Lemma flowResult_same (st1 st2 : State) :
  st1.(inputs).(totalFlow) = st2.(inputs).(totalFlow) ->
  st1.(inputs).(targetHumidity) = st2.(inputs).(targetHumidity) ->
  st1.(inputs).(concentrations) = st2.(inputs).(concentrations) ->
  st1.(calibration) = st2.(calibration) ->
  (forall c, mfcCValue st1 c = mfcCValue st2 c) ->
  flowResult st1 = flowResult st2.
Proof.
  intros Et Eh Ec Ek Em. rewrite !flowResult_by_guard.
  unfold rejected, Spec.unclamped. rewrite Et, Eh, Ec, Ek.
  rewrite (map_ext _ _ Em). reflexivity.
Qed.

Lemma toggle_keeps_result (checked : bool) (st : State) :
  st.(calibration).(ch2oCalibrationFactor) = 1 ->
  flowResult (onUseDesmosMathChange checked st) = flowResult st.
Proof.
  intros K. apply flowResult_same; try reflexivity.
  intros c. rewrite (dilution_factor_one st c K).
  rewrite (dilution_factor_one (onUseDesmosMathChange checked st) c K).
  reflexivity.
Qed.

(** X12.  With the calibration factor at 1, which is what the component
    holds from start to end, "Use Desmos Math" changes no number:
    flow_desmos is flow_standard for every entry, flow is that same value
    under either setting, and toggling the box leaves the result as it
    was. *)
Theorem desmos_toggle_changes_nothing (checked : bool) (st : State) :
  st.(calibration).(ch2oCalibrationFactor) = 1 ->
  flowResult (onUseDesmosMathChange checked st) = flowResult st
  /\ (forall entry,
        In entry (flowResult st).(mfcC) ->
        entry.(flow_desmos) = entry.(flow_standard)
        /\ entry.(flow_standard) = Some entry.(flow))
  /\ (forall events,
        (dispatch (run events) (UseDesmosMathToggled checked)).(results)
        = (run events).(results)).
Proof.
  intros K. split; [ apply toggle_keeps_result, K | split ].
  - intros entry Hin. rewrite flowResult_by_guard in Hin.
    destruct (rejected (inputs st)); [ destruct Hin | ].
    cbv zeta in Hin. cbn [mfcC] in Hin. apply in_map_iff in Hin.
    destruct Hin as (c & <- & _). rewrite (dilution_factor_one st c K).
    split; reflexivity.
  - intros events. pose proof (run_settled events) as S.
    cbn [dispatch].
    change (results (calculateMFCValues
                       (onUseDesmosMathChange checked (run events))))
      with (flowResult (onUseDesmosMathChange checked (run events))).
    rewrite toggle_keeps_result.
    + symmetry. apply S.
    + rewrite (settled_calibration _ S). reflexivity.
Qed.

Lemma desmos_toggle_changes_nothing_witness :
  firstState.(calibration).(ch2oCalibrationFactor) = 1
  /\ firstState.(inputs).(useDesmosMath) = true
  /\ flowResult (onUseDesmosMathChange false firstState) = flowResult firstState.
Proof.
  destruct (desmos_toggle_changes_nothing false firstState eq_refl) as (E & _).
  split; [ reflexivity | split; [ reflexivity | exact E ] ].
Defined.

(** ** What is downloaded is what is displayed *)

(** X13.  After any sequence of events that leaves a valid result, the file
    offered for download is the header followed by 2 x N + 3 data rows,
    N being the number of concentrations on display, and the exposure row
    of step i carries the flow (c / 1000) x totalFlow / ch2oSourceConc of the
    concentration c shown at position i, taken off mfcA. *)
Theorem download_matches_display (events : list Event)
    (nowCsv nowName : string) :
  (run events).(results).(isValid) = true ->
  (snd (downloadCSV nowCsv nowName (run events))).(blobContent)
    = csvHeader nowCsv (run events)
      ++ Timeline.joinRows (Timeline.rows (run events))
  /\ List.length (Timeline.rows (run events))
     = (2 * List.length (run events).(inputs).(concentrations) + 3)%nat
  /\ (forall i c,
        nth_error (run events).(inputs).(concentrations) i = Some c ->
        exists row,
          nth_error (Timeline.rows (run events)) (2 * i + 2) = Some row
          /\ Timeline.kind row = Timeline.Exposure
          /\ Timeline.chC row
             = (c / 1000) * (run events).(inputs).(totalFlow)
               / (run events).(inputs).(ch2oSourceConc)
          /\ Timeline.chA row
             = (run events).(results).(mfcA)
               - (c / 1000) * (run events).(inputs).(totalFlow)
                 / (run events).(inputs).(ch2oSourceConc)
          /\ Timeline.chB row = (run events).(results).(mfcB)).
Proof.
  intros V. pose proof (run_settled events) as Hs.
  set (st := run events) in *.
  assert (K : st.(calibration).(ch2oCalibrationFactor) = 1)
    by (rewrite (settled_calibration _ Hs); reflexivity).
  assert (M : st.(results).(mfcC)
              = map (mfcCValue st) st.(inputs).(concentrations)).
  { rewrite (settled_results _ Hs), flowResult_by_guard.
    rewrite (settled_results _ Hs), isValid_by_guard in V.
    apply negb_true_iff in V. rewrite V. reflexivity. }
  split; [ apply generateCSV_joinRows, V | split ].
  - unfold Timeline.rows. cbn [List.length].
    rewrite stepRows_length, M, length_map. lia.
  - intros i c Hc.
    assert (Hi : nth_error st.(results).(mfcC) i = Some (mfcCValue st c))
      by (rewrite M; apply map_nth_error; exact Hc).
    exists (Timeline.exposureAt
              (Timeline.cursor st.(timings).(baselineDuration)
                               st.(timings).(exposureDuration) i)
              st.(results).(mfcA) st.(results).(mfcB) (mfcCValue st c)).
    split.
    + unfold Timeline.rows.
      replace (2 * i + 2)%nat with (S (2 * i + 1))%nat by lia.
      cbn [nth_error].
      rewrite (stepRows_exposure _ _ _ _ _ _ _ _ Hi). reflexivity.
    + rewrite (dilution_factor_one st c K).
      repeat split.
Qed.

Lemma download_matches_display_witness :
  (run [ConcentrationsTyped (Text.of_string "10, 20")]).(results).(isValid)
  = true
  /\ List.length
       (Timeline.rows (run [ConcentrationsTyped (Text.of_string "10, 20")]))
     = 7%nat
  /\ map Timeline.formatRow
       (Timeline.rows (run [ConcentrationsTyped (Text.of_string "10, 20")]))
     = [ "0,319.71,180.29,0" ++ LF;
         "1800,319.71,180.29,0" ++ LF;
         "1800,318.78,180.29,0.934579439" ++ LF;
         "3600,319.71,180.29,0" ++ LF;
         "3600,317.84,180.29,1.869158879" ++ LF;
         "5400,319.71,180.29,0" ++ LF;
         "5400,0,0,0" ++ LF ].
Proof.
  destruct (download_matches_display
              [ConcentrationsTyped (Text.of_string "10, 20")]
              "2025-01-01T00:00:00.000Z" "2025-01-01T00:00:00.000Z" eq_refl)
    as (_ & L & _).
  split; [ reflexivity | split; [ exact L | vm_compute; reflexivity ] ].
Defined.
